(** * Warehouse RAG: the update interpreter, the document projector, the
      prompt builder and the persistence step, embedded from
      [app.py], [main-fixed.py] and [data_generator.py].

    Conventions of the embedding.
    - A Python [str] is a Rocq [string]; its characters are the 8-bit
      [ascii] codes.  Case mapping and the classes [\w], [\d], [\s] are
      those of Python on the ASCII range; codes from 128 on are taken
      as caseless characters that are neither word characters nor white
      space.
    - A Python [int] is a [Z].
    - A [dict] is an association list in insertion order (the order is
      visible in the message that [apply_data_updates] builds).
    - A pandas [DataFrame] is its list of column labels and its list of
      rows; a row maps a column label to a cell, an absent cell being
      pandas' NaN. *)

From Stdlib Require Import ZArith String Ascii List DecimalString Lia Bool.
From stdpp Require Import gmap strings list.
Import ListNotations.

Local Open Scope string_scope.

(* ===================================================================== *)
(** * Part I: definitions                                                 *)
(* ===================================================================== *)

(** ** Characters and Python string methods *)

Definition code (a : ascii) : nat := nat_of_ascii a.

Definition in_range (lo hi : nat) (a : ascii) : bool :=
  Nat.leb lo (code a) && Nat.leb (code a) hi.

Definition is_upper (a : ascii) : bool := in_range 65 90 a.
Definition is_lower (a : ascii) : bool := in_range 97 122 a.
Definition is_digit (a : ascii) : bool := in_range 48 57 a.

(** [str.isspace] on the ASCII range: TAB, LF, VT, FF, CR, the four
    separators 0x1c-0x1f and the space. *)
Definition is_space (a : ascii) : bool := in_range 9 13 a || in_range 28 32 a.

(** [\w] on the ASCII range. *)
Definition is_word (a : ascii) : bool :=
  is_upper a || is_lower a || is_digit a || Nat.eqb (code a) 95.

Definition lower_ascii (a : ascii) : ascii :=
  if is_upper a then ascii_of_nat (code a + 32) else a.

Definition upper_ascii (a : ascii) : ascii :=
  if is_lower a then ascii_of_nat (code a - 32) else a.

Definition chars (s : string) : list ascii := list_ascii_of_string s.
Definition text (l : list ascii) : string := string_of_list_ascii l.

(** [s.lower()] *)
Definition py_lower (s : string) : string := text (map lower_ascii (chars s)).

Fixpoint lstrip (l : list ascii) : list ascii :=
  match l with
  | a :: l' => if is_space a then lstrip l' else l
  | [] => []
  end.

Definition rstrip (l : list ascii) : list ascii := rev (lstrip (rev l)).

(** [s.strip()] *)
Definition py_strip (s : string) : string := text (rstrip (lstrip (chars s))).

(** [s.title()]: a cased character is upper-cased when the character
    before it is not cased, and lower-cased otherwise. *)
Fixpoint title_from (prev_cased : bool) (l : list ascii) : list ascii :=
  match l with
  | [] => []
  | a :: l' =>
      let cased := is_upper a || is_lower a in
      (if cased then (if prev_cased then lower_ascii a else upper_ascii a) else a)
        :: title_from cased l'
  end.

Definition py_title (s : string) : string := text (title_from false (chars s)).

(** [s.replace(old, new)] for a one-character [old], the only form the
    sources use. *)
Fixpoint replace_chars (old : ascii) (new : list ascii) (l : list ascii) : list ascii :=
  match l with
  | [] => []
  | a :: l' =>
      if Ascii.eqb a old then new ++ replace_chars old new l'
      else a :: replace_chars old new l'
  end.

Definition py_replace (old : ascii) (new : string) (s : string) : string :=
  text (replace_chars old (chars new) (chars s)).

(** [sep.join(parts)] *)
Fixpoint py_join (sep : string) (parts : list string) : string :=
  match parts with
  | [] => ""
  | [p] => p
  | p :: rest => p +:+ sep +:+ py_join sep rest
  end.

(** [str(n)] and the [{n}] of an f-string, for an [int]. *)
Definition str_of_int (n : Z) : string := NilZero.string_of_int (Z.to_int n).

(** [int(s)] for ASCII digits, white space around them ignored (the
    callers pass what [\d+] or a digit pattern captured). *)
Definition py_int (s : string) : Z :=
  fold_left (fun acc a => (acc * 10 + (Z.of_nat (code a) - 48))%Z)
    (chars (py_strip s)) 0%Z.

(** ** The fragment of Python's [re] that the patterns use

    Backtracking matcher with Python's priorities: alternatives left to
    right, [*] and [+] greedy, [*?] lazy, [?] greedy.  Every quantified
    item of the patterns is a single-character class, so [RStar] and
    [RLazy] take a class. *)

Inductive cclass : Type :=
| CAny                              (* .   (no DOTALL: not a line feed) *)
| CWord                             (* \w *)
| CDigit                            (* \d *)
| CSpace                            (* \s *)
| CLit (c : ascii)                  (* a literal character *)
| CRange (lo hi : ascii)            (* lo-hi inside [...] *)
| COr (c1 c2 : cclass).             (* union inside [...] *)

Fixpoint cmatch (cl : cclass) (a : ascii) : bool :=
  match cl with
  | CAny => negb (Nat.eqb (code a) 10)
  | CWord => is_word a
  | CDigit => is_digit a
  | CSpace => is_space a
  | CLit c => Ascii.eqb a c
  | CRange lo hi => in_range (code lo) (code hi) a
  | COr c1 c2 => cmatch c1 a || cmatch c2 a
  end.

Inductive regex : Type :=
| REps
| RChr (cl : cclass)
| RSeq (r1 r2 : regex)
| RAlt (r1 r2 : regex)
| RStar (cl : cclass)               (* cl*  *)
| RLazy (cl : cclass)               (* cl*? *)
| RGrp (n : nat) (r : regex).       (* the n-th capturing group *)

(** Captures: group number and captured text, latest binding first. *)
Definition caps : Type := list (nat * list ascii).

Definition cont : Type := list ascii -> caps -> option caps.

Definition orelse {A : Type} (x y : option A) : option A :=
  match x with Some _ => x | None => y end.

Fixpoint star_greedy (cl : cclass) (k : cont) (s : list ascii) (c : caps) : option caps :=
  match s with
  | a :: s' =>
      if cmatch cl a then orelse (star_greedy cl k s' c) (k s c) else k s c
  | [] => k s c
  end.

Fixpoint star_lazy (cl : cclass) (k : cont) (s : list ascii) (c : caps) : option caps :=
  match k s c with
  | Some m => Some m
  | None =>
      match s with
      | a :: s' => if cmatch cl a then star_lazy cl k s' c else None
      | [] => None
      end
  end.

Fixpoint rmatch (r : regex) (k : cont) (s : list ascii) (c : caps) : option caps :=
  match r with
  | REps => k s c
  | RChr cl =>
      match s with
      | a :: s' => if cmatch cl a then k s' c else None
      | [] => None
      end
  | RSeq r1 r2 => rmatch r1 (rmatch r2 k) s c
  | RAlt r1 r2 => orelse (rmatch r1 k s c) (rmatch r2 k s c)
  | RStar cl => star_greedy cl k s c
  | RLazy cl => star_lazy cl k s c
  | RGrp n r =>
      rmatch r (fun s' c' => k s' ((n, firstn (length s - length s') s) :: c')) s c
  end.

(** [re.search]: the first start position, left to right, at which the
    pattern matches. *)
Fixpoint search_from (r : regex) (s : list ascii) : option caps :=
  match rmatch r (fun _ c => Some c) s [] with
  | Some m => Some m
  | None =>
      match s with
      | _ :: s' => search_from r s'
      | [] => None
      end
  end.

Definition re_search (r : regex) (s : string) : option caps := search_from r (chars s).

(** [re.match]: a match at the start of the subject; group 0 is the
    text of the whole match. *)
Definition re_match (r : regex) (s : string) : option caps :=
  rmatch (RGrp 0 r) (fun _ c => Some c) (chars s) [].

(** [m.group(n)].  Every group of the patterns below lies on the spine
    of its pattern, so a match always binds it. *)
Fixpoint group_chars (m : caps) (n : nat) : list ascii :=
  match m with
  | (i, w) :: m' => if Nat.eqb i n then w else group_chars m' n
  | [] => []
  end.

Definition group (m : caps) (n : nat) : string := text (group_chars m n).

(** Pattern combinators. *)
Definition lit (s : string) : regex :=
  fold_right (fun a r => RSeq (RChr (CLit a)) r) REps (chars s).
Definition plus (cl : cclass) : regex := RSeq (RChr cl) (RStar cl).
Definition opt (r : regex) : regex := RAlt r REps.
Fixpoint rseq (rs : list regex) : regex :=
  match rs with
  | [] => REps
  | [r] => r
  | r :: rs' => RSeq r (rseq rs')
  end.

Definition dots : regex := RStar CAny.                       (* .*  *)
Definition dots_lazy : regex := RLazy CAny.                  (* .*? *)
Definition spaces : regex := RStar CSpace.                   (* \s* *)
Definition to_or_as : regex := RAlt (lit "to") (lit "as").   (* (?:to|as) *)
Definition as_or_to : regex := RAlt (lit "as") (lit "to").   (* (?:as|to) *)
Definition date_chars : cclass := COr (CRange "0" "9") (CLit "-").  (* [0-9-] *)

(** ** Values and dicts *)

Inductive Value : Type :=
| VInt (n : Z)
| VStr (s : string).

#[global] Instance Value_eq_dec : EqDecision Value.
Proof. solve_decision. Defined.

(** [str(v)], the [{v}] of an f-string. *)
Definition str_of_value (v : Value) : string :=
  match v with
  | VInt n => str_of_int n
  | VStr s => s
  end.

Definition dict : Type := list (string * Value).

(** [d.get(key)] *)
Fixpoint dict_get (key : string) (d : dict) : option Value :=
  match d with
  | [] => None
  | (k, v) :: d' => if String.eqb k key then Some v else dict_get key d'
  end.

(** [key in d] *)
Definition dict_has (key : string) (d : dict) : bool :=
  match dict_get key d with Some _ => true | None => false end.

(** [d[key] = v]: a present key keeps its position, a new key goes last. *)
Fixpoint dict_set (key : string) (v : Value) (d : dict) : dict :=
  match d with
  | [] => [(key, v)]
  | (k, w) :: d' =>
      if String.eqb k key then (k, v) :: d' else (k, w) :: dict_set key v d'
  end.

(** ** [app.py]: [parse_update_query] *)

(** r'product.*?(?:id|number)?\s*(\d+)' *)
Definition product_id_re : regex :=
  rseq [lit "product"; dots_lazy; opt (RAlt (lit "id") (lit "number"));
       spaces; RGrp 1 (plus CDigit)].

(** The [patterns] dict, in insertion order. *)
Definition patterns : list (string * regex) :=
  [ (* r'update.*product.*name.*?(\w+).*?(?:as|to)\s*(\w+)' *)
    ("product_name",
     rseq [lit "update"; dots; lit "product"; dots; lit "name"; dots_lazy;
          RGrp 1 (plus CWord); dots_lazy; as_or_to; spaces; RGrp 2 (plus CWord)]);
    (* r'update.*(?:stock|current.*?stock).*?(?:to|as)\s*(\d+)' *)
    ("current_stock",
     rseq [lit "update"; dots;
          RAlt (lit "stock") (rseq [lit "current"; dots_lazy; lit "stock"]);
          dots_lazy; to_or_as; spaces; RGrp 1 (plus CDigit)]);
    (* r'update.*last.*?sold.*?date.*?(?:to|as)\s*([0-9-]+)' *)
    ("last_sold_date",
     rseq [lit "update"; dots; lit "last"; dots_lazy; lit "sold"; dots_lazy;
          lit "date"; dots_lazy; to_or_as; spaces; RGrp 1 (plus date_chars)]);
    (* r'update.*expiry.*?date.*?(?:to|as)\s*([0-9-]+)' *)
    ("expiry_date",
     rseq [lit "update"; dots; lit "expiry"; dots_lazy; lit "date"; dots_lazy;
          to_or_as; spaces; RGrp 1 (plus date_chars)]);
    (* r'update.*(?:sales.*?last.*?month|last.*?month.*?sales).*?(?:to|as)\s*(\d+)' *)
    ("sales_last_month",
     rseq [lit "update"; dots;
          RAlt (rseq [lit "sales"; dots_lazy; lit "last"; dots_lazy; lit "month"])
               (rseq [lit "last"; dots_lazy; lit "month"; dots_lazy; lit "sales"]);
          dots_lazy; to_or_as; spaces; RGrp 1 (plus CDigit)]);
    (* r'update.*location.*?(?:to|as)\s*(\w+)' *)
    ("location",
     rseq [lit "update"; dots; lit "location"; dots_lazy; to_or_as; spaces;
          RGrp 1 (plus CWord)]);
    (* r'update.*(?:factory.*?distance|distance.*?factory).*?(?:to|as)\s*(\d+)' *)
    ("factory_distance",
     rseq [lit "update"; dots;
          RAlt (rseq [lit "factory"; dots_lazy; lit "distance"])
               (rseq [lit "distance"; dots_lazy; lit "factory"]);
          dots_lazy; to_or_as; spaces; RGrp 1 (plus CDigit)]) ].

(** [field.replace('_', ' ').title().replace(' ', '')] *)
Definition field_key (field : string) : string :=
  py_replace " " "" (py_title (py_replace "_" " " field)).

Definition str_in (x : string) (l : list string) : bool :=
  existsb (String.eqb x) l.

(** The body of the [for field, pattern in patterns.items()] loop. *)
Definition extract_field (query : string) (updates : dict) (fp : string * regex) : dict :=
  let (field, pattern) := fp in
  match re_search pattern query with
  | Some m =>
      if String.eqb field "product_name" then
        dict_set "ProductName" (VStr (group m 2))
          (dict_set "old_name" (VStr (group m 1)) updates)
      else if str_in field ["current_stock"; "sales_last_month"; "factory_distance"] then
        dict_set (field_key field) (VInt (py_int (group m 1))) updates
      else if str_in field ["last_sold_date"; "expiry_date"] then
        dict_set (field_key field) (VStr (group m 1)) updates
      else if String.eqb field "location" then
        dict_set "Location" (VStr (group m 1)) updates
      else updates
  | None => updates
  end.

Definition parse_update_query (query : string) : dict :=
  let query := py_strip (py_lower query) in
  let updates : dict := [] in
  let updates :=
    match re_search product_id_re query with
    | Some m => dict_set "ProductID" (VInt (py_int (group m 1))) updates
    | None => updates
    end in
  fold_left (extract_field query) patterns updates.

(** ** DataFrames *)

Record DataFrame : Type := mkDataFrame {
  df_columns : list string;
  df_rows : list (gmap string Value)
}.

#[global] Instance DataFrame_eq_dec : EqDecision DataFrame.
Proof. solve_decision. Defined.

(** What a call returns: a value, or the exception it raises. *)
Inductive outcome (A : Type) : Type :=
| Returned (a : A)
| Raised (exn : string).
Arguments Returned {A} a.
Arguments Raised {A} exn.

(** [df.empty]: an axis of length 0. *)
Definition df_empty (df : DataFrame) : bool :=
  match df_columns df, df_rows df with
  | [], _ => true
  | _, [] => true
  | _, _ => false
  end.

(** [key in df.columns] *)
Definition has_column (key : string) (df : DataFrame) : bool :=
  str_in key (df_columns df).

(** [df[col]]: the cells of a column, [KeyError] for an unknown label. *)
Definition df_col (col : string) (df : DataFrame) : outcome (list (option Value)) :=
  if has_column col df then Returned (map (fun r : gmap string Value => r !! col) (df_rows df))
  else Raised "KeyError".

(** One cell of [series == v]; NaN equals nothing, and an int never
    equals a str. *)
Definition cell_eq (v : Value) (c : option Value) : bool :=
  match c with
  | Some w => bool_decide (w = v)
  | None => false
  end.

(** One cell of [series.str.lower() == name]; the column is held with
    object dtype, as [read_csv] holds a text column, and a cell that is
    not a str becomes NaN. *)
Definition cell_lower_eq (name : string) (c : option Value) : bool :=
  match c with
  | Some (VStr s) => String.eqb (py_lower s) name
  | _ => false
  end.

(** [df.loc[mask, key] = value] *)
Fixpoint loc_set (mask : list bool) (key : string) (value : Value)
    (rows : list (gmap string Value)) : list (gmap string Value) :=
  match mask, rows with
  | b :: mask', r :: rows' =>
      (if b then <[key := value]> r else r) :: loc_set mask' key value rows'
  | _, _ => rows
  end.

Definition df_loc_set (mask : list bool) (key : string) (value : Value)
    (df : DataFrame) : DataFrame :=
  mkDataFrame (df_columns df) (loc_set mask key value (df_rows df)).

(** ** [app.py]: [apply_data_updates] *)

(** The row selector: the [if / elif / else] on ['ProductID'] and
    ['old_name'].  [Returned None] is the [else] branch. *)
Definition find_mask (df : DataFrame) (updates : dict) : outcome (option (list bool)) :=
  match dict_get "ProductID" updates with
  | Some pid =>
      match df_col "ProductID" df with
      | Returned cells => Returned (Some (map (cell_eq pid) cells))
      | Raised e => Raised e
      end
  | None =>
      match dict_get "old_name" updates with
      | Some old_name =>
          match df_col "ProductName" df with
          | Returned cells =>
              match old_name with
              | VStr s => Returned (Some (map (cell_lower_eq (py_lower s)) cells))
              | VInt _ => Raised "AttributeError"   (* an int has no .lower() *)
              end
          | Raised e => Raised e
          end
      | None => Returned None
      end
  end.

(** The body of [for key, value in updates.items()]. *)
Definition apply_item (mask : list bool) (st : DataFrame * list string)
    (kv : string * Value) : DataFrame * list string :=
  let (df, updated_fields) := st in
  let (key, value) := kv in
  if has_column key df
  then (df_loc_set mask key value df,
        (updated_fields ++ [key +:+ ": " +:+ str_of_value value])%list)
  else (df, updated_fields).

Definition msg_no_data : string := "No data to update".
Definition msg_no_target : string :=
  "Could not identify which product to update. Please specify ProductID or product name.".
Definition msg_not_found : string := "Product not found in inventory".
Definition msg_no_valid : string := "No valid updates found".
Definition msg_success (updated_fields : list string) : string :=
  "Successfully updated: " +:+ py_join ", " updated_fields.

Definition apply_data_updates (df : DataFrame) (updates : dict)
    : outcome (DataFrame * string) :=
  if df_empty df then Returned (df, msg_no_data)
  else
    match find_mask df updates with
    | Raised e => Raised e
    | Returned None => Returned (df, msg_no_target)
    | Returned (Some mask) =>
        if negb (existsb id mask) then Returned (df, msg_not_found)
        else
          let (df', updated_fields) := fold_left (apply_item mask) updates (df, []) in
          match updated_fields with
          | _ :: _ => Returned (df', msg_success updated_fields)
          | [] => Returned (df', msg_no_valid)
          end
    end.

(** ** Files *)

(** The file-system calls the sources make, and the files they act on:
    a path mapped to the content a reader of that path gets. *)
Inductive fs_op : Type :=
| MakeDirs (dir : string)               (* os.makedirs(dir, exist_ok=True) *)
| OpenW (path : string)                 (* open for writing: create or truncate *)
| Append (path : string) (data : string)  (* write to the file opened at path *)
| Replace (src dst : string).           (* os.replace(src, dst) *)

Definition fs_step (f : gmap string string) (op : fs_op) : option (gmap string string) :=
  match op with
  | MakeDirs _ => Some f
  | OpenW p => Some (<[p := ""]> f)
  | Append p d =>
      match f !! p with
      | Some old => Some (<[p := old +:+ d]> f)
      | None => None
      end
  | Replace src dst =>
      match f !! src with
      | Some d => Some (<[dst := d]> (delete src f))
      | None => None
      end
  end.

(** The states the file system goes through while the calls run, the
    initial one first; a failing call ends the run. *)
Fixpoint fs_states (f : gmap string string) (ops : list fs_op) : list (gmap string string) :=
  f :: match ops with
       | [] => []
       | op :: ops' =>
           match fs_step f op with
           | Some f' => fs_states f' ops'
           | None => []
           end
       end.

Fixpoint drop_while (p : ascii -> bool) (l : list ascii) : list ascii :=
  match l with
  | a :: l' => if p a then drop_while p l' else l
  | [] => []
  end.

(** [os.path.dirname]: the part up to the last slash, without its
    trailing slashes unless it consists of slashes only. *)
Definition py_dirname (p : string) : string :=
  let head := rev (drop_while (fun a => negb (Ascii.eqb a "/")) (rev (chars p))) in
  if forallb (fun a => Ascii.eqb a "/") head then text head
  else text (rev (drop_while (fun a => Ascii.eqb a "/") (rev head))).

Definition CSV_FILE_PATH : string := "./data/inventory.csv".

Section Persistence.

(** The text pandas' [to_csv(..., index=False)] renders for a frame. *)
Variable csv_text : DataFrame -> string.

(** [df.to_csv(path, index=False)]: the file is opened for writing,
    which truncates it, and then the text goes in. *)
Definition to_csv (df : DataFrame) (path : string) : list fs_op :=
  [OpenW path; Append path (csv_text df)].

(** [app.py]: [save_inventory_data], when no call raises (it then
    returns [True]). *)
Definition save_inventory_data (df : DataFrame) : list fs_op :=
  MakeDirs (py_dirname CSV_FILE_PATH) :: to_csv df CSV_FILE_PATH.

(** [data_generator.py]: [atomic_csv_update]. *)
Definition atomic_csv_update (df : DataFrame) (csv_path : string) : list fs_op :=
  let temp_path := csv_path +:+ ".tmp" in
  (to_csv df temp_path ++ [Replace temp_path csv_path])%list.

(** What the "Apply Updates" button of [app.py] does with a command
    (the [if update_button and update_query.strip()] block): the
    command is parsed, applied to a copy of the loaded frame, and the
    copy is saved when it differs from the loaded frame. *)
Inductive update_result : Type :=
| Saved (updated_df : DataFrame) (message : string) (ops : list fs_op)
| Warned (message : string)
| ParseFailed
| Ignored.

Definition apply_update_command (df : DataFrame) (update_query : string)
    : outcome update_result :=
  if String.eqb (py_strip update_query) "" then Returned Ignored
  else
    let updates := parse_update_query update_query in
    match updates with
    | [] => Returned ParseFailed
    | _ :: _ =>
        match apply_data_updates df updates with
        | Raised e => Raised e
        | Returned (updated_df, message) =>
            if negb (bool_decide (updated_df = df))
            then Returned (Saved updated_df message (save_inventory_data updated_df))
            else Returned (Warned message)
        end
    end.

End Persistence.

(** A persist of [new] at [path] over [old] is atomic when every state
    a reader can see holds the old or the new content at [path]. *)
Definition reader_sees_only (path old new : string) (states : list (gmap string string)) : Prop :=
  Forall (fun f : gmap string string => f !! path = Some old \/ f !! path = Some new) states.

(** The mechanism itself: the calls never open [path] for writing or
    write to it, and their last call is a replace onto [path]. *)
Definition touches (path : string) (op : fs_op) : bool :=
  match op with
  | OpenW p | Append p _ => String.eqb p path
  | _ => false
  end.

Definition write_temp_then_rename (path : string) (ops : list fs_op) : Prop :=
  exists pre tmp, ops = (pre ++ [Replace tmp path])%list /\ tmp <> path /\
                  forallb (fun op => negb (touches path op)) pre = true.

(** ** Calendar dates ([datetime.date]) *)

Record date : Type := mkdate { year : Z; month : Z; day : Z }.

Local Open Scope Z_scope.

Definition is_leap (y : Z) : bool :=
  (y mod 4 =? 0) && (negb (y mod 100 =? 0) || (y mod 400 =? 0)).

Definition days_in_month (y m : Z) : Z :=
  if m =? 2 then (if is_leap y then 29 else 28)
  else if (m =? 4) || (m =? 6) || (m =? 9) || (m =? 11) then 30
  else 31.

Definition days_before_year (y : Z) : Z :=
  let p := y - 1 in p * 365 + p / 4 - p / 100 + p / 400.

Definition days_before_month (y m : Z) : Z :=
  fold_right Z.add 0 (map (fun i => days_in_month y (Z.of_nat i)) (seq 1 (Z.to_nat (m - 1)))).

(** [d.toordinal()]: 1 for 0001-01-01. *)
Definition toordinal (d : date) : Z :=
  days_before_year (year d) + days_before_month (year d) (month d) + day d.

(** [date(y, m, d)]; [None] is the [ValueError] of a date that does not
    exist. *)
Definition make_date (y m d : Z) : option date :=
  if (1 <=? y) && (y <=? 9999) && (1 <=? m) && (m <=? 12)
     && (1 <=? d) && (d <=? days_in_month y m)
  then Some (mkdate y m d) else None.

Local Close Scope Z_scope.

(** The pattern [_strptime] builds for the format ['%Y-%m-%d']:
    (\d\d\d\d)-(1[0-2]|0[1-9]|[1-9])-(3[0-1]|[1-2]\d|0[1-9]|[1-9]| [1-9]) *)
Definition rng (lo hi : ascii) : regex := RChr (CRange lo hi).

Definition strptime_ymd_re : regex :=
  let d := RChr CDigit in
  rseq [ RGrp 1 (rseq [d; d; d; d]); lit "-";
        RGrp 2 (RAlt (rseq [lit "1"; rng "0" "2"])
               (RAlt (rseq [lit "0"; rng "1" "9"]) (rng "1" "9")));
        lit "-";
        RGrp 3 (RAlt (rseq [lit "3"; rng "0" "1"])
               (RAlt (rseq [rng "1" "2"; d])
               (RAlt (rseq [lit "0"; rng "1" "9"])
               (RAlt (rng "1" "9") (rseq [lit " "; rng "1" "9"]))))) ].

(** [datetime.strptime(s, '%Y-%m-%d').date()]; [None] is the
    [ValueError] raised when [s] does not match the format, when text
    remains after the match, or when the date does not exist. *)
Definition strptime_ymd (s : string) : option date :=
  match re_match strptime_ymd_re s with
  | None => None
  | Some m =>
      if negb (Nat.eqb (length (chars s)) (length (group_chars m 0))) then None
      else make_date (py_int (group m 1)) (py_int (group m 2)) (py_int (group m 3))
  end.

(** ** The wall clock

    A computation that may read the current date takes it as an
    argument; [today] reads it and [clk_ret] does not. *)
Definition Clocked (A : Type) : Type := date -> A.
Definition clk_ret {A : Type} (a : A) : Clocked A := fun _ => a.
Definition clk_bind {A B : Type} (m : Clocked A) (f : A -> Clocked B) : Clocked B :=
  fun now => f (m now) now.
Definition today : Clocked date := fun now => now.

(** ** [main-fixed.py]: [create_document_text] *)

Definition nl : string := String "010" "".

Definition stock_status (current_stock : Z) : string :=
  if (current_stock =? 0)%Z then "OUT OF STOCK"
  else if (current_stock <? 10)%Z then "CRITICAL LOW STOCK"
  else if (current_stock <? 50)%Z then "LOW STOCK"
  else "ADEQUATE STOCK".

(** The [try ... except] block: [date(2025, 9, 22)] is a literal, the
    clock is not read. *)
Definition expiry_status (expiry_date : string) : Clocked string :=
  clk_ret
    match strptime_ymd expiry_date with
    | Some expiry =>
        let current_date := mkdate 2025 9 22 in
        let days_to_expiry := (toordinal expiry - toordinal current_date)%Z in
        if (days_to_expiry <? 0)%Z then "EXPIRED"
        else if (days_to_expiry <=? 7)%Z then "EXPIRES SOON - URGENT"
        else if (days_to_expiry <=? 30)%Z then "EXPIRES THIS MONTH"
        else "FRESH"
    | None => "UNKNOWN EXPIRY"
    end.

Definition demand_status (sales_last_month : Z) : string :=
  if (sales_last_month >? 100)%Z then "HIGH DEMAND"
  else if (sales_last_month >? 50)%Z then "MEDIUM DEMAND"
  else if (sales_last_month >? 0)%Z then "LOW DEMAND"
  else "NO RECENT SALES".

Definition distance_status (factory_distance_km : Z) : string :=
  if (factory_distance_km <=? 5)%Z then "CLOSE TO FACTORY"
  else if (factory_distance_km <=? 15)%Z then "MODERATE DISTANCE"
  else "FAR FROM FACTORY".

(** The conditional expression of the last line of the f-string. *)
Definition priority (stock_status expiry_status : string) : string :=
  if str_in stock_status ["CRITICAL LOW STOCK"; "OUT OF STOCK"]
     || String.eqb expiry_status "EXPIRES SOON - URGENT"
  then "HIGH PRIORITY" else "NORMAL PRIORITY".

(** The lines of the f-string, between its first and its last line
    feed. *)
Definition document_lines (product_id : Z) (product_name location : string)
    (current_stock : Z) (last_sold_date expiry_date : string)
    (sales_last_month total_sales factory_distance_km : Z)
    (stock_status expiry_status demand_status distance_status : string) : list string :=
  [ "Product Information:";
    "Product ID: " +:+ str_of_int product_id;
    "Product Name: " +:+ product_name;
    "Location: " +:+ location;
    "Current Stock: " +:+ str_of_int current_stock +:+ " units (" +:+ stock_status +:+ ")";
    "Last Sold Date: " +:+ last_sold_date;
    "Expiry Date: " +:+ expiry_date +:+ " (" +:+ expiry_status +:+ ")";
    "Sales Last Month: " +:+ str_of_int sales_last_month +:+ " units (" +:+ demand_status +:+ ")";
    "Total Sales: " +:+ str_of_int total_sales +:+ " units";
    "Factory Distance: " +:+ str_of_int factory_distance_km +:+ " km (" +:+ distance_status +:+ ")";
    "Status Summary: " +:+ stock_status +:+ ", " +:+ expiry_status +:+ ", " +:+ demand_status;
    "Priority: " +:+ priority stock_status expiry_status ].

Definition create_document_text (product_id : Z) (product_name location : string)
    (current_stock : Z) (last_sold_date expiry_date : string)
    (sales_last_month total_sales factory_distance_km : Z) : Clocked string :=
  let stock_status := stock_status current_stock in
  clk_bind (expiry_status expiry_date) (fun expiry_status =>
  let demand_status := demand_status sales_last_month in
  let distance_status := distance_status factory_distance_km in
  let document_text :=
    nl +:+ py_join nl (document_lines product_id product_name location current_stock
                         last_sold_date expiry_date sales_last_month total_sales
                         factory_distance_km stock_status expiry_status demand_status
                         distance_status) +:+ nl in
  clk_ret (py_strip document_text)).

(** ** [app.py]: the "Expired Items" metric, which does read the clock *)

(** One turn of [for _, row in df.iterrows()]: any failure inside the
    [try] (no such column, a cell that is not a date) is passed over. *)
Definition row_is_expired (current_date : date) (row : gmap string Value) : bool :=
  match row !! "ExpiryDate" with
  | Some (VStr s) =>
      match strptime_ymd s with
      | Some expiry_date => (toordinal expiry_date <? toordinal current_date)%Z
      | None => false
      end
  | _ => false
  end.

Definition expired_items (df : DataFrame) : Clocked nat :=
  clk_bind today (fun current_date =>
  clk_ret (length (filter (fun row => row_is_expired current_date row = true) (df_rows df)))).

(** ** [main-fixed.py]: [build_warehouse_prompt] *)

(** The shapes of a retrieved document that the loop tells apart. *)
Inductive doc : Type :=
| DocObject (text_attr : Value)     (* hasattr(doc, 'text') *)
| DocDict (d : dict)                (* isinstance(doc, dict) *)
| DocStr (s : string)               (* isinstance(doc, str) *)
| DocOther (str_of_doc : string).   (* anything else, with its str(doc) *)

(** Truth value of an int or a str. *)
Definition truthy (v : Value) : bool :=
  match v with
  | VInt n => negb (n =? 0)%Z
  | VStr s => negb (String.eqb s "")
  end.

(** [d.get(key, default)] *)
Definition dict_get_default (key : string) (default : Value) (d : dict) : Value :=
  match dict_get key d with Some v => v | None => default end.

(** The body of [for doc in docs]. *)
Definition add_context_part (context_parts : list string) (d : doc) : list string :=
  match d with
  | DocObject t => context_parts ++ [str_of_value t]
  | DocDict d =>
      let text :=
        dict_get_default "text"
          (dict_get_default "chunk" (dict_get_default "data" (VStr "") d) d) d in
      if truthy text then context_parts ++ [str_of_value text] else context_parts
  | DocStr s => context_parts ++ [s]
  | DocOther s => context_parts ++ [s]
  end%list.

Definition context_delimiter : string := nl +:+ nl +:+ "---" +:+ nl +:+ nl.
Definition no_data_placeholder : string := "No inventory data found.".

Definition build_context (docs : list doc) : string :=
  let context_parts := fold_left add_context_part docs [] in
  match context_parts with
  | _ :: _ => py_join context_delimiter context_parts
  | [] => no_data_placeholder
  end.

Definition prompt_head : string :=
  "You are a warehouse management AI assistant. Use the following real-time inventory data to answer the query."
  +:+ nl +:+ nl +:+ "CURRENT INVENTORY DATA:" +:+ nl.

Definition prompt_tail : string :=
  nl +:+ nl +:+ "Provide a helpful response that:" +:+ nl +:+
  "1. Directly answers the question with specific details (product IDs, names, stock levels)" +:+ nl +:+
  "2. Highlights urgent issues (low stock, expiring items)" +:+ nl +:+
  "3. Provides actionable recommendations" +:+ nl +:+
  "4. Uses exact numbers and dates from the data" +:+ nl +:+ nl +:+
  "RESPONSE:".

Definition build_warehouse_prompt (docs : list doc) (query : string) : string :=
  let context := build_context docs in
  prompt_head +:+ context +:+ nl +:+ nl +:+ "USER QUERY: " +:+ query +:+ prompt_tail.

(** ** The inventory table *)

(** The header of the dataset ([InventorySchema]). *)
Definition inventory_columns : list string :=
  ["ProductID"; "ProductName"; "Location"; "CurrentStock"; "LastSoldDate";
   "ExpiryDate"; "SalesLastMonth"; "TotalSales"; "FactoryDistanceKM"].

Definition inventory_row (product_id : Z) (product_name location : string)
    (current_stock : Z) (last_sold_date expiry_date : string)
    (sales_last_month total_sales factory_distance_km : Z) : gmap string Value :=
  list_to_map
    [("ProductID", VInt product_id); ("ProductName", VStr product_name);
     ("Location", VStr location); ("CurrentStock", VInt current_stock);
     ("LastSoldDate", VStr last_sold_date); ("ExpiryDate", VStr expiry_date);
     ("SalesLastMonth", VInt sales_last_month); ("TotalSales", VInt total_sales);
     ("FactoryDistanceKM", VInt factory_distance_km)].

(** [app.py]: the frame of [sample_data]. *)
Definition sample_df : DataFrame :=
  mkDataFrame inventory_columns
    [ inventory_row 11020 "Organic Apples" "SectionA" 5 "2025-09-20" "2025-09-25" 45 320 8;
      inventory_row 11021 "Premium Bananas" "SectionB" 0 "2025-09-19" "2025-09-28" 0 180 12;
      inventory_row 11022 "Fresh Oranges" "SectionA" 75 "2025-09-21" "2025-10-15" 120 650 8;
      inventory_row 11023 "Organic Tomatoes" "SectionC" 15 "2025-09-18" "2025-09-23" 80 420 15;
      inventory_row 11024 "Green Lettuce" "SectionA" 25 "2025-09-22" "2025-09-30" 95 380 8 ].

(** A frame in which two records carry the same name up to case. *)
Definition same_name_df : DataFrame :=
  mkDataFrame inventory_columns
    [ inventory_row 1 "Anand" "SectionA" 5 "2025-09-20" "2025-09-25" 45 320 8;
      inventory_row 2 "ANAND" "SectionB" 7 "2025-09-19" "2025-09-28" 0 180 12;
      inventory_row 3 "Kiran" "SectionB" 9 "2025-09-19" "2025-09-28" 0 180 12 ].

(** Three parsed updates used below: what [parse_update_query] returns
    for "Update product 11023 stock to 50", for the same command with
    "and factory distance to 3" added, and for
    "Update product name Anand as Dubey". *)
Definition stock_update : dict :=
  [("ProductID", VInt 11023); ("CurrentStock", VInt 50)].

Definition stock_and_distance_update : dict :=
  [("ProductID", VInt 11023); ("CurrentStock", VInt 50); ("FactoryDistance", VInt 3)].


(** [sample_df] with the stock of product 11023 set to 50. *)
Definition restocked_df : DataFrame :=
  mkDataFrame inventory_columns
    [ inventory_row 11020 "Organic Apples" "SectionA" 5 "2025-09-20" "2025-09-25" 45 320 8;
      inventory_row 11021 "Premium Bananas" "SectionB" 0 "2025-09-19" "2025-09-28" 0 180 12;
      inventory_row 11022 "Fresh Oranges" "SectionA" 75 "2025-09-21" "2025-10-15" 120 650 8;
      inventory_row 11023 "Organic Tomatoes" "SectionC" 50 "2025-09-18" "2025-09-23" 80 420 15;
      inventory_row 11024 "Green Lettuce" "SectionA" 25 "2025-09-22" "2025-09-30" 95 380 8 ].

(** ** Vocabulary of the statements *)

(** The stock labels as the specification names them, and the text
    [create_document_text] uses for each. *)
Inductive stock_label : Type := OUT_OF_STOCK | CRITICAL_LOW | LOW | ADEQUATE.

Definition stock_label_text (l : stock_label) : string :=
  match l with
  | OUT_OF_STOCK => "OUT OF STOCK"
  | CRITICAL_LOW => "CRITICAL LOW STOCK"
  | LOW => "LOW STOCK"
  | ADEQUATE => "ADEQUATE STOCK"
  end.

(** The threshold rule in the specification's words: 0 is out of
    stock, below 10 is critically low, below 50 is low, else adequate. *)
Definition spec_stock_label (n : Z) : stock_label :=
  if bool_decide (n = 0)%Z then OUT_OF_STOCK
  else if bool_decide (n < 10)%Z then CRITICAL_LOW
  else if bool_decide (n < 50)%Z then LOW
  else ADEQUATE.

(** [sub] occurs in [s]. *)
Definition is_infix (sub s : string) : Prop :=
  exists pre post, s = pre +:+ sub +:+ post.

(** Every captured text consists of characters satisfying [P]. *)
Definition caps_ok (P : ascii -> Prop) (c : caps) : Prop :=
  Forall (fun nw : nat * list ascii => Forall P nw.2) c.

(** A continuation that keeps [caps_ok] on subjects made of [P]. *)
Definition cont_ok (P : ascii -> Prop) (k : cont) : Prop :=
  forall s c m, Forall P s -> caps_ok P c -> k s c = Some m -> caps_ok P m.

(** No character changes under [lower]. *)
Definition lowered (l : list ascii) : Prop := Forall (fun a => lower_ascii a = a) l.

Definition value_low (v : Value) : Prop :=
  match v with
  | VStr s => py_lower s = s
  | VInt _ => True
  end.

Definition dict_low (d : dict) : Prop :=
  Forall (fun kv : string * Value => value_low kv.2) d.

(** The items of [updates] whose key is a column of [df], in order:
    the fields the loop of [apply_data_updates] writes. *)
Definition applied_fields (df : DataFrame) (updates : dict) : dict :=
  List.filter (fun kv : string * Value => has_column kv.1 df) updates.

(** The entry of [updated_fields] for one item. *)
Definition field_msg (kv : string * Value) : string :=
  kv.1 +:+ ": " +:+ str_of_value kv.2.

(** A row after the items were written to it one after the other. *)
Definition write_all (items : dict) (r : gmap string Value) : gmap string Value :=
  fold_left (fun (r : gmap string Value) (kv : string * Value) => <[kv.1 := kv.2]> r) items r.





(** The rendering of [to_csv] for a frame none of whose labels and
    cells needs quoting: a header line and one line per row, NaN as the
    empty field. *)
Definition csv_line (fields : list string) : string := py_join "," fields +:+ nl.

Definition csv_cell (c : option Value) : string :=
  match c with Some v => str_of_value v | None => "" end.

Definition csv_text_plain (df : DataFrame) : string :=
  fold_right String.append ""
    (csv_line (df_columns df)
     :: map (fun r : gmap string Value =>
               csv_line (map (fun col => csv_cell (r !! col)) (df_columns df)))
            (df_rows df)).

(** ** [app.py] and [data_generator.py]: the stock metrics *)

(** [len(df[series_of_bools])]: the number of [True] cells. *)
Definition count_true (mask : list bool) : nat := length (List.filter id mask).

(** One cell of [series < n] and of [series > n]: NaN compares false,
    a str against an int raises [TypeError]. *)
Definition cell_lt (n : Z) (c : option Value) : outcome bool :=
  match c with
  | Some (VInt k) => Returned (k <? n)%Z
  | Some (VStr _) => Raised "TypeError"
  | None => Returned false
  end.

Definition cell_gt (n : Z) (c : option Value) : outcome bool :=
  match c with
  | Some (VInt k) => Returned (k >? n)%Z
  | Some (VStr _) => Raised "TypeError"
  | None => Returned false
  end.

(** A comparison applied down a column: the first failing cell raises. *)
Fixpoint cells_test (test : option Value -> outcome bool) (cells : list (option Value))
    : outcome (list bool) :=
  match cells with
  | [] => Returned []
  | c :: cells' =>
      match test c with
      | Raised e => Raised e
      | Returned b =>
          match cells_test test cells' with
          | Raised e => Raised e
          | Returned bs => Returned (b :: bs)
          end
      end
  end.

Definition column_test (test : option Value -> outcome bool) (col : string)
    (df : DataFrame) : outcome (list bool) :=
  match df_col col df with
  | Raised e => Raised e
  | Returned cells => cells_test test cells
  end.

(** [app.py]: [low_stock = len(df[df['CurrentStock'] < 10])] *)
Definition low_stock_items (df : DataFrame) : outcome nat :=
  match column_test (cell_lt 10) "CurrentStock" df with
  | Raised e => Raised e
  | Returned mask => Returned (count_true mask)
  end.

(** [app.py] and [data_generator.py]:
    [out_of_stock = len(df[df['CurrentStock'] == 0])] *)
Definition out_of_stock_items (df : DataFrame) : outcome nat :=
  match df_col "CurrentStock" df with
  | Raised e => Raised e
  | Returned cells => Returned (count_true (map (cell_eq (VInt 0)) cells))
  end.

(** [data_generator.py]:
    [low_stock = len(df[(df['CurrentStock'] > 0) & (df['CurrentStock'] < 10)])] *)
Definition generator_low_stock (df : DataFrame) : outcome nat :=
  match column_test (cell_gt 0) "CurrentStock" df with
  | Raised e => Raised e
  | Returned positive =>
      match column_test (cell_lt 10) "CurrentStock" df with
      | Raised e => Raised e
      | Returned below => Returned (count_true (zip_with andb positive below))
      end
  end.

(** ** More vocabulary *)


(** [sub in s] *)
Fixpoint is_prefix (p l : list ascii) : bool :=
  match p, l with
  | [], _ => true
  | a :: p', b :: l' => Ascii.eqb a b && is_prefix p' l'
  | _ :: _, [] => false
  end.

Fixpoint contains (p l : list ascii) : bool :=
  is_prefix p l || match l with [] => false | _ :: l' => contains p l' end.

Definition str_contains (sub s : string) : bool := contains (chars sub) (chars s).

(** Every result of a continuation satisfies [Q]. *)
Definition cont_post (Q : caps -> Prop) (k : cont) : Prop :=
  forall s c m, k s c = Some m -> Q m.

(** Group 1 of a match consists of digits. *)
Definition digits_ok (m : caps) : Prop :=
  Forall (fun a => is_digit a = true) (group_chars m 1).

(** The keys [parse_update_query] can put into its result. *)
Definition update_keys : list string :=
  ["ProductID"; "old_name"; "ProductName"; "CurrentStock"; "LastSoldDate";
   "ExpiryDate"; "SalesLastMonth"; "Location"; "FactoryDistance"].

Definition dict_keys_ok (d : dict) : Prop :=
  NoDup d.*1 /\ Forall (fun kv : string * Value => In kv.1 update_keys) d.

Definition value_nonneg (v : Value) : Prop :=
  match v with
  | VInt n => (0 <= n)%Z
  | VStr _ => True
  end.

Definition dict_nonneg (d : dict) : Prop :=
  Forall (fun kv : string * Value => value_nonneg kv.2) d.

(** A pattern whose last item is the group [(\d+)], numbered 1. *)
Inductive ends_with_digits : regex -> Prop :=
| ends_group : ends_with_digits (RGrp 1 (plus CDigit))
| ends_seq r1 r2 : ends_with_digits r2 -> ends_with_digits (RSeq r1 r2).

(** A retrieved document whose collected text, if any, is not empty. *)
Definition doc_has_text (d : doc) : Prop :=
  match d with
  | DocObject t => str_of_value t <> ""
  | DocDict _ => True
  | DocStr s => s <> ""
  | DocOther s => s <> ""
  end.

(** Every int cell of column [col] is at least 0 (NaN cells allowed,
    str cells not). *)
Definition column_nonneg (col : string) (df : DataFrame) : Prop :=
  Forall (fun r : gmap string Value =>
            match r !! col with
            | Some (VInt n) => (0 <= n)%Z
            | Some (VStr _) => False
            | None => True
            end) (df_rows df).

(* ===================================================================== *)
(** * Part II: lemmas and theorems                                        *)
(* ===================================================================== *)

(** ** Strings as character lists *)

Lemma chars_text (l : list ascii) : chars (text l) = l.
Proof. apply list_ascii_of_string_of_list_ascii. Qed.

Lemma text_chars (s : string) : text (chars s) = s.
Proof. apply string_of_list_ascii_of_string. Qed.

Lemma chars_app (s t : string) : chars (s +:+ t) = (chars s ++ chars t)%list.
Proof. unfold chars. induction s as [|a s IH]; simpl; [reflexivity | now rewrite IH]. Qed.


Lemma lower_ascii_idem (a : ascii) : lower_ascii (lower_ascii a) = lower_ascii a.
Proof. destruct a as [[] [] [] [] [] [] [] []]; reflexivity. Qed.

(** ** What the matcher can capture *)

Section Captures.

Variable P : ascii -> Prop.

Lemma orelse_some {A} (x y : option A) (m : A) :
  orelse x y = Some m -> x = Some m \/ y = Some m.
Proof. destruct x; simpl; auto. Qed.

Lemma star_greedy_caps cl k : cont_ok P k -> cont_ok P (star_greedy cl k).
Proof.
  intros Hk s. induction s as [|a s IH]; intros c m Hs Hc; simpl.
  - apply Hk; auto.
  - destruct (cmatch cl a).
    + intros H. apply orelse_some in H as [H|H].
      * apply (IH c m); auto. now inversion Hs.
      * apply (Hk _ _ _ Hs Hc H).
    + apply Hk; auto.
Qed.

Lemma star_lazy_caps cl k : cont_ok P k -> cont_ok P (star_lazy cl k).
Proof.
  intros Hk s. induction s as [|a s IH]; intros c m Hs Hc; simpl.
  - destruct (k [] c) eqn:E; [|discriminate].
    intros [= <-]. apply (Hk _ _ _ Hs Hc E).
  - destruct (k (a :: s) c) eqn:E.
    + intros [= <-]. apply (Hk _ _ _ Hs Hc E).
    + destruct (cmatch cl a); [|discriminate].
      apply IH; auto. now inversion Hs.
Qed.

Lemma rmatch_caps r : forall k, cont_ok P k -> cont_ok P (rmatch r k).
Proof.
  induction r as [|cl|r1 IH1 r2 IH2|r1 IH1 r2 IH2|cl|cl|n r IH]; intros k Hk; simpl.
  - exact Hk.
  - intros [|a s] c m Hs Hc; [discriminate|].
    destruct (cmatch cl a); [|discriminate].
    apply Hk; auto. now inversion Hs.
  - apply IH1, IH2, Hk.
  - intros s c m Hs Hc H. apply orelse_some in H as [H|H].
    + apply (IH1 k Hk _ _ _ Hs Hc H).
    + apply (IH2 k Hk _ _ _ Hs Hc H).
  - now apply star_greedy_caps.
  - now apply star_lazy_caps.
  - intros s c m Hs Hc. apply IH; auto.
    intros s' c' m' Hs' Hc'. apply Hk; auto.
    constructor; auto. simpl. now apply Forall_take.
Qed.

Lemma search_from_caps r s m :
  Forall P s -> search_from r s = Some m -> caps_ok P m.
Proof.
  induction s as [|a s IH]; intros Hs; simpl.
  - destruct (rmatch r _ [] []) eqn:E; [|discriminate].
    intros [= <-]. eapply (rmatch_caps r); [| |constructor|exact E]; auto.
    intros ? ? ? _ ? [= <-]; auto.
  - destruct (rmatch r _ (a :: s) []) eqn:E.
    + intros [= <-]. eapply (rmatch_caps r); [| |constructor|exact E]; auto.
      intros ? ? ? _ ? [= <-]; auto.
    + apply IH. now inversion Hs.
Qed.

Lemma group_chars_ok m n : caps_ok P m -> Forall P (group_chars m n).
Proof.
  induction m as [|[i w] m IH]; intros Hm; simpl; [constructor|].
  inversion Hm; subst. destruct (Nat.eqb i n); auto.
Qed.

Lemma re_search_group r s m n :
  Forall P (chars s) -> re_search r s = Some m -> Forall P (chars (group m n)).
Proof.
  intros Hs H. unfold group. rewrite chars_text.
  apply group_chars_ok. eapply search_from_caps; eauto.
Qed.

End Captures.

(** ** Lower case *)

Lemma lowered_map_lower (l : list ascii) : lowered (map lower_ascii l).
Proof.
  induction l as [|a l IH]; constructor; auto using lower_ascii_idem.
Qed.

Lemma lowered_text (l : list ascii) : lowered l -> py_lower (text l) = text l.
Proof.
  intros H. unfold py_lower. rewrite chars_text. f_equal.
  induction H as [|a l Ha _ IH]; simpl; [reflexivity | now rewrite Ha, IH].
Qed.

Lemma lstrip_Forall (P : ascii -> Prop) (l : list ascii) : Forall P l -> Forall P (lstrip l).
Proof.
  induction 1 as [|a l Ha Hl IH]; simpl; [constructor|].
  destruct (is_space a); auto.
Qed.

Lemma rstrip_Forall (P : ascii -> Prop) (l : list ascii) : Forall P l -> Forall P (rstrip l).
Proof.
  intros H. unfold rstrip. apply Forall_rev, lstrip_Forall, Forall_rev, H.
Qed.

Lemma query_lowered (q : string) : lowered (chars (py_strip (py_lower q))).
Proof.
  unfold py_strip, py_lower. rewrite !chars_text.
  apply rstrip_Forall, lstrip_Forall, lowered_map_lower.
Qed.

Lemma group_low r q m n :
  lowered (chars q) -> re_search r q = Some m -> value_low (VStr (group m n)).
Proof.
  intros Hq Hm. simpl.
  pose proof (re_search_group _ r q m n Hq Hm) as H.
  rewrite <- (text_chars (group m n)). now apply lowered_text.
Qed.

Lemma dict_set_low k v d : value_low v -> dict_low d -> dict_low (dict_set k v d).
Proof.
  intros Hv. induction 1 as [|[k' w] d Hw Hd IH]; simpl.
  - repeat constructor; auto.
  - destruct (String.eqb k' k); constructor; auto.
Qed.

Lemma extract_field_low q d fp :
  lowered (chars q) -> dict_low d -> dict_low (extract_field q d fp).
Proof.
  intros Hq Hd. destruct fp as [field pattern]. unfold extract_field.
  destruct (re_search pattern q) as [m|] eqn:Hm; [|exact Hd].
  repeat match goal with
         | |- dict_low (if ?b then _ else _) => destruct b
         end;
    repeat apply dict_set_low; simpl; auto; eapply group_low; eauto.
Qed.

Lemma fold_extract_low q ps d :
  lowered (chars q) -> dict_low d -> dict_low (fold_left (extract_field q) ps d).
Proof.
  intros Hq. revert d. induction ps as [|fp ps IH]; intros d Hd; simpl; auto.
  apply IH, extract_field_low; auto.
Qed.

Lemma parse_result_low (q : string) : dict_low (parse_update_query q).
Proof.
  unfold parse_update_query. apply fold_extract_low; [apply query_lowered|].
  destruct (re_search product_id_re _); [|constructor].
  apply dict_set_low; simpl; auto. constructor.
Qed.

Lemma dict_get_In k d v : dict_get k d = Some v -> In (k, v) d.
Proof.
  induction d as [|[k' w] d IH]; simpl; [discriminate|].
  destruct (String.eqb k' k) eqn:E.
  - intros [= ->]. apply String.eqb_eq in E. subst. now left.
  - intros H. right. auto.
Qed.

(** ** The loop of [apply_data_updates] *)

Lemma has_column_loc_set mask k v df key :
  has_column key (df_loc_set mask k v df) = has_column key df.
Proof. reflexivity. Qed.

Lemma applied_fields_loc_set mask k v df updates :
  applied_fields (df_loc_set mask k v df) updates = applied_fields df updates.
Proof. reflexivity. Qed.

Lemma fold_apply_item mask updates : forall df acc,
  fold_left (apply_item mask) updates (df, acc) =
  (mkDataFrame (df_columns df)
     (fold_left (fun rows (kv : string * Value) => loc_set mask kv.1 kv.2 rows)
        (applied_fields df updates) (df_rows df)),
   (acc ++ map field_msg (applied_fields df updates))%list).
Proof.
  induction updates as [|[k v] updates IH]; intros df acc; simpl.
  - rewrite app_nil_r. now destruct df.
  - unfold applied_fields; simpl. destruct (has_column k df) eqn:Hk; simpl.
    + rewrite IH. rewrite applied_fields_loc_set. simpl.
      unfold applied_fields, field_msg. simpl. f_equal. rewrite <- List.app_assoc. reflexivity.
    + now rewrite IH.
Qed.

Lemma loc_set_lookup mask k v rows i :
  loc_set mask k v rows !! i =
  (fun r => if default false (mask !! i) then <[k := v]> r else r) <$> (rows !! i).
Proof.
  revert rows i. induction mask as [|b mask IH]; intros rows i; simpl.
  - destruct rows; simpl; destruct i; simpl; try reflexivity;
      now destruct (_ !! _).
  - destruct rows as [|r rows]; [reflexivity|].
    destruct i as [|i]; simpl; [reflexivity | apply IH].
Qed.

Lemma fold_loc_set_lookup mask items : forall rows i,
  fold_left (fun rows (kv : string * Value) => loc_set mask kv.1 kv.2 rows) items rows !! i =
  (fun r => if default false (mask !! i) then write_all items r else r) <$> (rows !! i).
Proof.
  induction items as [|[k v] items IH]; intros rows i; simpl.
  - destruct (rows !! i); simpl; [|reflexivity]. now destruct (default false _).
  - rewrite IH, loc_set_lookup. destruct (rows !! i); simpl; [|reflexivity].
    now destruct (default false _).
Qed.

Lemma write_all_lookup_notin items : forall (r : gmap string Value) k,
  dict_get k items = None -> write_all items r !! k = r !! k.
Proof.
  induction items as [|[k' v] items IH]; intros r k; simpl; [reflexivity|].
  destruct (String.eqb k' k) eqn:E; [discriminate|].
  intros H. unfold write_all in *. simpl. rewrite IH by exact H.
  apply String.eqb_neq in E. now rewrite lookup_insert_ne.
Qed.

Lemma write_all_lookup items : forall (r : gmap string Value) k,
  NoDup items.*1 ->
  write_all items r !! k =
  match dict_get k items with Some v => Some v | None => r !! k end.
Proof.
  induction items as [|[k' v] items IH]; intros r k Hnd; simpl; [reflexivity|].
  apply NoDup_cons in Hnd as [Hk' Hnd].
  unfold write_all in *. simpl.
  destruct (String.eqb k' k) eqn:E.
  - apply String.eqb_eq in E. subst k'.
    assert (dict_get k items = None) as Hnone.
    { destruct (dict_get k items) eqn:G; [|reflexivity].
      exfalso. apply Hk'. apply dict_get_In in G.
      apply list_elem_of_fmap. exists (k, v0). split; [reflexivity|].
      now apply list_elem_of_In. }
    pose proof (write_all_lookup_notin items (<[k := v]> r) k Hnone) as H.
    unfold write_all in H. rewrite H. apply lookup_insert_eq.
  - rewrite IH by exact Hnd. destruct (dict_get k items); [reflexivity|].
    apply String.eqb_neq in E. now rewrite lookup_insert_ne.
Qed.

Lemma dict_get_applied df updates k :
  dict_get k (applied_fields df updates) =
  if has_column k df then dict_get k updates else None.
Proof.
  unfold applied_fields. induction updates as [|[k' v] updates IH]; simpl.
  - now destruct (has_column k df).
  - destruct (has_column k' df) eqn:Hk'; simpl.
    + destruct (String.eqb k' k) eqn:E.
      * apply String.eqb_eq in E. subst. now rewrite Hk'.
      * exact IH.
    + destruct (String.eqb k' k) eqn:E; [|exact IH].
      apply String.eqb_eq in E. subst. rewrite Hk' in *. exact IH.
Qed.

Lemma NoDup_applied df updates :
  NoDup updates.*1 -> NoDup (applied_fields df updates).*1.
Proof.
  unfold applied_fields. induction updates as [|[k v] updates IH]; simpl; [auto|].
  intros [Hk Hnd]%NoDup_cons. destruct (has_column k df); simpl; auto.
  apply NoDup_cons. split; auto.
  intros Hin. apply Hk. apply list_elem_of_fmap in Hin as [[k' v'] [-> Hin]].
  apply list_elem_of_fmap. exists (k', v'). split; [reflexivity|].
  apply list_elem_of_In in Hin. apply filter_In in Hin as [Hin _].
  now apply list_elem_of_In.
Qed.

(** The result of [apply_data_updates] once the target rows are found. *)
Lemma apply_data_updates_resolved df updates mask :
  df_empty df = false ->
  find_mask df updates = Returned (Some mask) ->
  existsb id mask = true ->
  apply_data_updates df updates =
  Returned
    (mkDataFrame (df_columns df)
       (fold_left (fun rows (kv : string * Value) => loc_set mask kv.1 kv.2 rows)
          (applied_fields df updates) (df_rows df)),
     match applied_fields df updates with
     | [] => msg_no_valid
     | _ :: _ => msg_success (map field_msg (applied_fields df updates))
     end).
Proof.
  intros He Hm Hany. unfold apply_data_updates.
  rewrite He, Hm, Hany. simpl. rewrite fold_apply_item. simpl.
  now destruct (applied_fields df updates).
Qed.


Lemma existsb_id_lookup (mask : list bool) i :
  mask !! i = Some true -> existsb id mask = true.
Proof.
  intros H. apply existsb_exists. exists true. split; [|reflexivity].
  apply list_elem_of_In. eapply list_elem_of_lookup_2; eauto.
Qed.

Lemma default_mask_lookup {A} (f : A -> bool) (l : list A) i :
  default false (map f l !! i) = match l !! i with Some x => f x | None => false end.
Proof.
  change (map f l) with (f <$> l). rewrite list_lookup_fmap. now destruct (l !! i).
Qed.

(** The mask that a test [f] on the cells of column [col] gives. *)
Lemma column_mask_lookup (f : option Value -> bool) (col : string)
    (rows : list (gmap string Value)) j :
  default false (map f (map (fun r : gmap string Value => r !! col) rows) !! j)
  = match rows !! j with Some r => f (r !! col) | None => false end.
Proof.
  rewrite default_mask_lookup.
  change (map ?g ?l) with (g <$> l). rewrite list_lookup_fmap.
  now destruct (rows !! j).
Qed.

Lemma column_mask_any (f : option Value -> bool) (col : string)
    (rows : list (gmap string Value)) i r :
  rows !! i = Some r -> f (r !! col) = true ->
  existsb id (map f (map (fun r : gmap string Value => r !! col) rows)) = true.
Proof.
  intros Hr Hf. apply (existsb_id_lookup _ i).
  pose proof (column_mask_lookup f col rows i) as H. rewrite Hr, Hf in H.
  revert H. destruct (map f _ !! i) as [b|]; simpl; intros H; [now subst|discriminate].
Qed.

Lemma df_empty_false df i r :
  has_column "ProductID" df = true \/ has_column "ProductName" df = true ->
  df_rows df !! i = Some r -> df_empty df = false.
Proof.
  unfold df_empty, has_column. intros Hc Hr.
  destruct (df_columns df); [destruct Hc; discriminate|].
  destruct (df_rows df); [now destruct i|reflexivity].
Qed.

Lemma loc_set_length mask k v rows : length (loc_set mask k v rows) = length rows.
Proof.
  revert rows. induction mask as [|b mask IH]; intros [|r rows]; simpl; auto.
Qed.

Lemma fold_loc_set_length mask items : forall rows,
  length (fold_left (fun rows (kv : string * Value) => loc_set mask kv.1 kv.2 rows) items rows)
  = length rows.
Proof.
  induction items as [|[k v] items IH]; intros rows; simpl; [reflexivity|].
  now rewrite IH, loc_set_length.
Qed.

(** Without a ProductID and without a name the command is rejected and
    the frame is returned as it was. *)
Lemma apply_data_updates_no_target df updates :
  df_empty df = false ->
  dict_get "ProductID" updates = None ->
  dict_get "old_name" updates = None ->
  apply_data_updates df updates = Returned (df, msg_no_target).
Proof.
  intros He Hpid Hold. unfold apply_data_updates, find_mask.
  now rewrite He, Hpid, Hold.
Qed.

(** Whatever the rejection, a command that does not answer
    "Successfully updated: ..." returns the frame as it was. *)
Lemma apply_data_updates_rejected_unchanged df updates df' message :
  apply_data_updates df updates = Returned (df', message) ->
  (forall fs, message <> msg_success fs) ->
  df' = df.
Proof.
  unfold apply_data_updates.
  destruct (df_empty df); [now intros [= <- _]|].
  destruct (find_mask df updates) as [[mask|]|]; [|now intros [= <- _]|discriminate].
  destruct (existsb id mask); simpl; [|now intros [= <- _]].
  rewrite fold_apply_item. simpl.
  destruct (applied_fields df updates) as [|kv fs] eqn:E; simpl.
  - intros [= <- _] _. now destruct df.
  - intros [= _ <-] H. now destruct (H (field_msg kv :: map field_msg fs)).
Qed.



(** C5.  In a frame with the columns ProductID and CurrentStock in
    which record [i] is the one record with ProductID 11023, applying
    {ProductID: 11023, CurrentStock: 50} succeeds, sets CurrentStock of
    record [i] to 50, keeps every other field of that record, and
    keeps every other record. *)
Theorem apply_stock_update_frame (df : DataFrame) (i : nat) (r : gmap string Value) :
  has_column "ProductID" df = true ->
  has_column "CurrentStock" df = true ->
  df_rows df !! i = Some r ->
  r !! "ProductID" = Some (VInt 11023) ->
  (forall j r', df_rows df !! j = Some r' -> r' !! "ProductID" = Some (VInt 11023) -> j = i) ->
  exists df' r',
    apply_data_updates df stock_update =
      Returned (df', "Successfully updated: ProductID: 11023, CurrentStock: 50")
    /\ df_columns df' = df_columns df
    /\ length (df_rows df') = length (df_rows df)
    /\ df_rows df' !! i = Some r'
    /\ r' !! "CurrentStock" = Some (VInt 50)
    /\ (forall k, k <> "CurrentStock" -> r' !! k = r !! k)
    /\ (forall j, j <> i -> df_rows df' !! j = df_rows df !! j).
Proof.
  intros Hpid Hcs Hr Hid Huniq.
  set (mask := map (cell_eq (VInt 11023))
                 (map (fun r : gmap string Value => r !! "ProductID") (df_rows df))).
  assert (find_mask df stock_update = Returned (Some mask)) as Hm.
  { unfold find_mask, df_col. simpl. now rewrite Hpid. }
  pose proof (column_mask_lookup (cell_eq (VInt 11023)) "ProductID" (df_rows df)) as Hbit.
  fold mask in Hbit.
  assert (existsb id mask = true) as Hany.
  { apply (column_mask_any _ _ _ i r Hr). now rewrite Hid. }
  assert (applied_fields df stock_update = stock_update) as Happ.
  { unfold applied_fields, stock_update. simpl. now rewrite Hpid, Hcs. }
  pose proof (apply_data_updates_resolved df stock_update mask
                (df_empty_false df i r (or_introl Hpid) Hr) Hm Hany) as Hres.
  rewrite Happ in Hres.
  eexists _, (<["CurrentStock" := VInt 50]> r).
  split; [exact Hres|]. cbn [df_columns df_rows].
  split; [reflexivity|]. split; [apply fold_loc_set_length|].
  split; [|split; [|split]].
  - rewrite (fold_loc_set_lookup mask stock_update), Hr. simpl.
    rewrite Hbit, Hr, Hid.
    change (cell_eq (VInt 11023) (Some (VInt 11023))) with true.
    unfold write_all. simpl. now rewrite (insert_id r "ProductID").
  - apply lookup_insert_eq.
  - intros k Hk. now rewrite lookup_insert_ne.
  - intros j Hj. rewrite (fold_loc_set_lookup mask stock_update).
    destruct (df_rows df !! j) as [r'|] eqn:Hr'; [|reflexivity]. simpl.
    rewrite Hbit, Hr'. unfold cell_eq.
    destruct (r' !! "ProductID") as [w|] eqn:Hw; [|reflexivity].
    destruct (bool_decide (w = VInt 11023)) eqn:Hd; [|reflexivity].
    apply bool_decide_eq_true_1 in Hd. subst w.
    exfalso. apply Hj. now apply (Huniq j r').
Qed.

Lemma apply_stock_update_frame_witness :
  exists df' r',
    apply_data_updates sample_df stock_update =
      Returned (df', "Successfully updated: ProductID: 11023, CurrentStock: 50")
    /\ df_columns df' = df_columns sample_df
    /\ length (df_rows df') = length (df_rows sample_df)
    /\ df_rows df' !! 3 = Some r'
    /\ r' !! "CurrentStock" = Some (VInt 50)
    /\ (forall k, k <> "CurrentStock" -> r' !! k =
          inventory_row 11023 "Organic Tomatoes" "SectionC" 15 "2025-09-18" "2025-09-23"
            80 420 15 !! k)
    /\ (forall j, j <> 3 -> df_rows df' !! j = df_rows sample_df !! j).
Proof.
  apply (apply_stock_update_frame sample_df 3
           (inventory_row 11023 "Organic Tomatoes" "SectionC" 15 "2025-09-18" "2025-09-23"
              80 420 15)).
  - reflexivity.
  - reflexivity.
  - reflexivity.
  - reflexivity.
  - intros j r' Hj Hid.
    destruct j as [|[|[|[|[|j]]]]]; simpl in Hj; try discriminate;
      try reflexivity; injection Hj as <-; vm_compute in Hid; discriminate.
Defined.




Lemma write_all_lookup_some items : forall (r : gmap string Value) k v,
  write_all items r !! k = Some v -> In (k, v) items \/ r !! k = Some v.
Proof.
  induction items as [|[k' w] items IH]; intros r k v; unfold write_all; simpl; [auto|].
  intros H. apply IH in H as [H|H]; [auto|].
  destruct (decide (k' = k)) as [->|Hne].
  - rewrite lookup_insert_eq in H. injection H as ->. auto.
  - rewrite lookup_insert_ne in H by exact Hne. auto.
Qed.

Lemma applied_fields_In df updates kv : In kv (applied_fields df updates) -> In kv updates.
Proof. unfold applied_fields. intros H. now apply filter_In in H. Qed.

(** Every cell of the frame that [apply_data_updates] returns is a value
    of [updates] or the cell that was there. *)
Lemma apply_data_updates_cells df updates df' message i r' k v :
  apply_data_updates df updates = Returned (df', message) ->
  df_rows df' !! i = Some r' ->
  r' !! k = Some v ->
  In (k, v) updates \/ exists r, df_rows df !! i = Some r /\ r !! k = Some v.
Proof.
  unfold apply_data_updates.
  destruct (df_empty df); [intros [= <- _]; eauto|].
  destruct (find_mask df updates) as [[mask|]|]; [| intros [= <- _]; eauto | discriminate].
  destruct (existsb id mask); simpl; [| intros [= <- _]; eauto].
  rewrite fold_apply_item. simpl.
  intros H Hr' Hk.
  assert (df' = mkDataFrame (df_columns df)
            (fold_left (fun rows (kv : string * Value) => loc_set mask kv.1 kv.2 rows)
               (applied_fields df updates) (df_rows df))) as ->.
  { destruct (map field_msg (applied_fields df updates)); now injection H as <- _. }
  cbn [df_rows] in Hr'. rewrite fold_loc_set_lookup in Hr'.
  destruct (df_rows df !! i) as [r|] eqn:Hr; [|discriminate].
  simpl in Hr'. injection Hr' as <-.
  destruct (default false (mask !! i)); [|eauto].
  apply write_all_lookup_some in Hk as [Hk|Hk]; [|eauto].
  left. eapply applied_fields_In, Hk.
Qed.

(** C10.  Every str value that [parse_update_query] extracts is in
    lower case, whatever the case of the command; hence every str cell
    of the frame that [apply_data_updates] returns for a parsed command
    is in lower case or was in the frame before.  A command that sets
    the location to SectionB stores "sectionb". *)
Theorem parse_update_query_lowercases :
  (forall q key s,
     dict_get key (parse_update_query q) = Some (VStr s) -> py_lower s = s)
  /\ (forall q df df' message i r' k s,
        apply_data_updates df (parse_update_query q) = Returned (df', message) ->
        df_rows df' !! i = Some r' ->
        r' !! k = Some (VStr s) ->
        py_lower s = s \/ exists r, df_rows df !! i = Some r /\ r !! k = Some (VStr s))
  /\ parse_update_query "Update product 11023 location to SectionB"
     = [("ProductID", VInt 11023); ("Location", VStr "sectionb")]
  /\ (exists df',
        apply_data_updates sample_df
          (parse_update_query "Update product 11023 location to SectionB")
        = Returned (df', "Successfully updated: ProductID: 11023, Location: sectionb")
        /\ df_rows df' !! 3 ≫= (fun r : gmap string Value => r !! "Location")
           = Some (VStr "sectionb")).
Proof.
  assert (forall q k s, In (k, VStr s) (parse_update_query q) -> py_lower s = s) as Hin.
  { intros q k s H. pose proof (parse_result_low q) as Hl.
    unfold dict_low in Hl. rewrite Forall_forall in Hl.
    apply (Hl (k, VStr s)). now apply list_elem_of_In. }
  split; [|split; [|split]].
  - intros q key s H. eapply Hin, dict_get_In, H.
  - intros q df df' message i r' k s Ha Hr Hk.
    destruct (apply_data_updates_cells _ _ _ _ _ _ _ _ Ha Hr Hk) as [H|H]; [|auto].
    left. eapply Hin, H.
  - vm_compute. reflexivity.
  - eexists. split; vm_compute; reflexivity.
Qed.

(** ** Strings: append, join, strip *)

Lemma str_app_assoc (s t u : string) : (s +:+ t) +:+ u = s +:+ (t +:+ u).
Proof.
  induction s as [|a s IH]; [reflexivity|].
  change (String a ((s +:+ t) +:+ u) = String a (s +:+ (t +:+ u))). now f_equal.
Qed.

Lemma str_app_nil_r (s : string) : s +:+ "" = s.
Proof.
  induction s as [|a s IH]; [reflexivity|].
  change (String a (s +:+ "") = String a s). now f_equal.
Qed.

Lemma is_infix_refl (s : string) : is_infix s s.
Proof. exists "", "". simpl. now rewrite str_app_nil_r. Qed.

Lemma is_infix_app_l (sub s pre : string) : is_infix sub s -> is_infix sub (pre +:+ s).
Proof.
  intros (p & q & ->). exists (pre +:+ p), q. now rewrite str_app_assoc.
Qed.

Lemma is_infix_app_r (sub s post : string) : is_infix sub s -> is_infix sub (s +:+ post).
Proof.
  intros (p & q & ->). exists p, (q +:+ post). now rewrite !str_app_assoc.
Qed.

Lemma py_join_cons sep p q rest :
  py_join sep (p :: q :: rest) = p +:+ sep +:+ py_join sep (q :: rest).
Proof. reflexivity. Qed.

Lemma py_join_infix sep (parts : list string) p :
  In p parts -> is_infix p (py_join sep parts).
Proof.
  induction parts as [|a [|b parts] IH]; intros Hin; [destruct Hin| |].
  - destruct Hin as [<-|[]]. apply is_infix_refl.
  - rewrite py_join_cons. destruct Hin as [<-|Hin].
    + apply is_infix_app_r, is_infix_refl.
    + apply is_infix_app_l, is_infix_app_l, IH, Hin.
Qed.

Lemma py_join_last sep (parts : list string) last :
  exists pre, py_join sep (parts ++ [last]) = pre +:+ last.
Proof.
  induction parts as [|a parts [pre IH]].
  - now exists "".
  - exists (a +:+ sep +:+ pre).
    destruct parts as [|b parts]; cbn [app] in *;
      rewrite py_join_cons, IH, !str_app_assoc; reflexivity.
Qed.

Lemma lstrip_nonspace a l : is_space a = false -> lstrip (a :: l) = a :: l.
Proof. intros H. simpl. now rewrite H. Qed.

Lemma rstrip_nonspace l b : is_space b = false -> rstrip (l ++ [b]) = (l ++ [b])%list.
Proof.
  intros H. unfold rstrip. rewrite rev_unit, lstrip_nonspace by exact H.
  now rewrite <- rev_unit, rev_involutive.
Qed.

(** Stripping a text framed by line feeds whose first and last
    characters are not white space gives the text back. *)
Lemma py_strip_framed (body : string) a l pre b :
  chars body = a :: l -> is_space a = false ->
  chars body = (pre ++ [b])%list -> is_space b = false ->
  py_strip (nl +:+ body +:+ nl) = body.
Proof.
  intros Ha Hsa Hb Hsb. unfold py_strip.
  rewrite !chars_app. change (chars nl) with ["010"%char]. simpl.
  rewrite Ha, <- app_comm_cons, lstrip_nonspace by exact Hsa.
  rewrite app_comm_cons, <- Ha.
  unfold rstrip. rewrite rev_unit. simpl.
  rewrite Hb, rev_unit, lstrip_nonspace by exact Hsb.
  rewrite <- rev_unit, rev_involutive, <- Hb. apply text_chars.
Qed.

Lemma priority_chars s e : exists pre, chars (priority s e) = (pre ++ ["Y"%char])%list.
Proof.
  unfold priority. destruct (_ || _).
  - now exists (chars "HIGH PRIORIT").
  - now exists (chars "NORMAL PRIORIT").
Qed.

(** The text of a document, once its four labels are computed. *)
Lemma document_text_strip pid name loc cs lsd exp slm ts fd st es ds dist :
  py_strip (nl +:+ py_join nl (document_lines pid name loc cs lsd exp slm ts fd st es ds dist)
            +:+ nl)
  = py_join nl (document_lines pid name loc cs lsd exp slm ts fd st es ds dist).
Proof.
  destruct (priority_chars st es) as [pre Hpre].
  set (lines := document_lines pid name loc cs lsd exp slm ts fd st es ds dist).
  destruct (py_join_last nl (removelast lines) ("Priority: " +:+ priority st es))
    as [pre' Hpre'].
  assert (removelast lines ++ ["Priority: " +:+ priority st es] = lines)%list as Hl
    by reflexivity.
  rewrite Hl in Hpre'.
  eapply (py_strip_framed _ "P"%char _ _ "Y"%char).
  - reflexivity.
  - reflexivity.
  - rewrite Hpre', !chars_app, Hpre. rewrite !app_assoc. reflexivity.
  - reflexivity.
Qed.




(** C2, as stated, fails at 10: a stock of 10 is labelled LOW, not
    CRITICAL_LOW, so the five boundary values do not map to the five
    labels the claim lists. *)
Lemma stock_status_ten_is_low :
  stock_status 10 = stock_label_text LOW
  /\ stock_label_text LOW <> stock_label_text CRITICAL_LOW
  /\ map stock_status [0; 9; 10; 49; 50]%Z
     <> map stock_label_text [OUT_OF_STOCK; CRITICAL_LOW; CRITICAL_LOW; LOW; ADEQUATE].
Proof. repeat split; discriminate. Qed.

(** C2, amended.  The stock label follows the thresholds: 0 is
    OUT_OF_STOCK, any other value below 10 is CRITICAL_LOW, a value
    from 10 and below 50 is LOW, a value from 50 is ADEQUATE; 0, 9, 10,
    49 and 50 map to OUT_OF_STOCK, CRITICAL_LOW, LOW, LOW, ADEQUATE. *)
Theorem stock_status_thresholds :
  (forall n : Z, stock_status n = stock_label_text (spec_stock_label n))
  /\ map stock_status [0; 9; 10; 49; 50]%Z
     = map stock_label_text [OUT_OF_STOCK; CRITICAL_LOW; LOW; LOW; ADEQUATE].
Proof.
  split; [|reflexivity].
  intros n. unfold stock_status, spec_stock_label.
  destruct (Z.eqb_spec n 0) as [->|H0]; [reflexivity|].
  rewrite bool_decide_eq_false_2 by exact H0.
  destruct (Z.ltb_spec n 10) as [H1|H1].
  - now rewrite bool_decide_eq_true_2.
  - rewrite bool_decide_eq_false_2 by lia.
    destruct (Z.ltb_spec n 50) as [H2|H2].
    + now rewrite bool_decide_eq_true_2.
    + now rewrite bool_decide_eq_false_2 by lia.
Qed.

(** The example commands that [app.py] shows next to the input box. *)
Lemma parse_update_query_examples :
  map parse_update_query
    [ "Update product name Anand as Dubey";
      "Update product 11025 last sold date to 2025-09-23";
      "Update Organic Apples location to SectionB";
      "Update product 11020 sales last month to 75";
      "Update product 11030 expiry date to 2025-10-15" ]
  = [ [("old_name", VStr "anand"); ("ProductName", VStr "dubey")];
      [("ProductID", VInt 11025); ("LastSoldDate", VStr "2025-09-23")];
      [("Location", VStr "sectionb")];
      [("ProductID", VInt 11020); ("SalesLastMonth", VInt 75)];
      [("ProductID", VInt 11030); ("ExpiryDate", VStr "2025-10-15")] ].
Proof. vm_compute. reflexivity. Qed.

(** A factory distance is parsed under the key FactoryDistance, which is
    not the column FactoryDistanceKM. *)
Lemma parse_factory_distance :
  parse_update_query "Update product 11023 stock to 50 and factory distance to 3"
  = stock_and_distance_update
  /\ has_column "FactoryDistance" sample_df = false.
Proof. split; vm_compute; reflexivity. Qed.

(** C4.  "Update product 11023 stock to 50" parses to exactly
    {ProductID: 11023, CurrentStock: 50}. *)
Theorem parse_update_product_stock :
  parse_update_query "Update product 11023 stock to 50"
  = [("ProductID", VInt 11023); ("CurrentStock", VInt 50)].
Proof. vm_compute. reflexivity. Qed.

(** C9.  The document does not depend on the wall clock: projecting
    the same record at two dates gives the same text.  The expiry label
    is decided by the number of days from 2025-09-22 to the expiry
    date, as the six boundary dates show (-1, 0, 7, 8, 30 and 31 days
    after 2025-09-22). *)
Theorem create_document_text_ignores_clock :
  (forall (product_id : Z) (product_name location : string) (current_stock : Z)
          (last_sold_date expiry_date : string)
          (sales_last_month total_sales factory_distance_km : Z) (now1 now2 : date),
     create_document_text product_id product_name location current_stock last_sold_date
       expiry_date sales_last_month total_sales factory_distance_km now1
     = create_document_text product_id product_name location current_stock last_sold_date
         expiry_date sales_last_month total_sales factory_distance_km now2)
  /\ (forall (expiry_date : string) (expiry now : date),
        strptime_ymd expiry_date = Some expiry ->
        expiry_status expiry_date now =
        let days_to_expiry := (toordinal expiry - toordinal (mkdate 2025 9 22))%Z in
        if (days_to_expiry <? 0)%Z then "EXPIRED"
        else if (days_to_expiry <=? 7)%Z then "EXPIRES SOON - URGENT"
        else if (days_to_expiry <=? 30)%Z then "EXPIRES THIS MONTH"
        else "FRESH")
  /\ (forall now : date,
        map (fun e => expiry_status e now)
          ["2025-09-21"; "2025-09-22"; "2025-09-29"; "2025-09-30"; "2025-10-22"; "2025-10-23"]
        = ["EXPIRED"; "EXPIRES SOON - URGENT"; "EXPIRES SOON - URGENT";
           "EXPIRES THIS MONTH"; "EXPIRES THIS MONTH"; "FRESH"]).
Proof.
  split; [|split].
  - reflexivity.
  - intros e d now H. unfold expiry_status, clk_ret. now rewrite H.
  - intros now. vm_compute. reflexivity.
Qed.

(** The "Expired Items" metric of [app.py] reads the clock: the same
    frame counts differently on different days. *)
Lemma expired_items_reads_clock :
  expired_items sample_df (mkdate 2025 9 22) = 0
  /\ expired_items sample_df (mkdate 2025 9 29) = 3.
Proof. split; vm_compute; reflexivity. Qed.

(** ** The prompt *)

Lemma build_context_no_docs : build_context [] = no_data_placeholder.
Proof. reflexivity. Qed.

Lemma build_warehouse_prompt_context docs query :
  is_infix (build_context docs) (build_warehouse_prompt docs query).
Proof.
  unfold build_warehouse_prompt. apply is_infix_app_l, is_infix_app_r, is_infix_refl.
Qed.

Lemma str_app_eq_nil (s t : string) : s +:+ t = "" -> s = "".
Proof. now destruct s. Qed.

Lemma py_join_nonempty sep (parts : list string) :
  parts <> [] -> Forall (fun p => p <> "") parts -> py_join sep parts <> "".
Proof.
  intros Hne Hall. destruct Hall as [|p parts Hp Hall]; [congruence|].
  destruct parts as [|q parts]; [exact Hp|].
  rewrite py_join_cons. intros H. now apply str_app_eq_nil in H.
Qed.

(** The context is not empty as long as no collected part is. *)
Lemma build_context_nonempty docs :
  Forall (fun p => p <> "") (fold_left add_context_part docs []) ->
  build_context docs <> "".
Proof.
  unfold build_context. intros H.
  destruct (fold_left add_context_part docs []) as [|p parts] eqn:E; [discriminate|].
  now apply py_join_nonempty.
Qed.


(** ** Persistence *)

Lemma str_app_length (s t : string) :
  String.length (s +:+ t) = String.length s + String.length t.
Proof.
  induction s as [|a s IH]; [reflexivity|].
  change (S (String.length (s +:+ t)) = S (String.length s + String.length t)).
  now rewrite IH.
Qed.

Lemma tmp_path_fresh (p : string) : p +:+ ".tmp" <> p.
Proof.
  intros H. apply (f_equal String.length) in H.
  rewrite str_app_length in H. simpl in H. lia.
Qed.

Section PersistenceFacts.

Variable csv_text : DataFrame -> string.

(** [atomic_csv_update] is write-temp-then-rename. *)
Lemma atomic_csv_update_mechanism df csv_path :
  write_temp_then_rename csv_path (atomic_csv_update csv_text df csv_path).
Proof.
  exists (to_csv csv_text df (csv_path +:+ ".tmp")), (csv_path +:+ ".tmp").
  split; [reflexivity|]. split; [apply tmp_path_fresh|].
  simpl. rewrite !(proj2 (String.eqb_neq _ _) (tmp_path_fresh csv_path)). reflexivity.
Qed.

(** A reader of the dataset sees the old text or the new text at every
    moment of [atomic_csv_update]. *)
Lemma atomic_csv_update_reader df csv_path (f : gmap string string) old :
  f !! csv_path = Some old ->
  reader_sees_only csv_path old (csv_text df)
    (fs_states f (atomic_csv_update csv_text df csv_path)).
Proof.
  intros Hold. pose proof (tmp_path_fresh csv_path) as Hne.
  unfold atomic_csv_update, to_csv, reader_sees_only. simpl.
  rewrite lookup_insert_eq. simpl. rewrite lookup_insert_eq.
  apply Forall_cons. split; [now left|].
  apply Forall_cons. split; [left; now rewrite lookup_insert_ne|].
  apply Forall_cons. split; [left; now rewrite !lookup_insert_ne|].
  apply Forall_cons. split; [right; now rewrite lookup_insert_eq|].
  constructor.
Qed.

(** [save_inventory_data] is not: it opens the dataset itself. *)
Lemma save_inventory_data_in_place df :
  ~ write_temp_then_rename CSV_FILE_PATH (save_inventory_data csv_text df).
Proof.
  intros (pre & tmp & H & _ & _). unfold save_inventory_data, to_csv in H.
  destruct pre as [|? [|? [|? [|? pre]]]]; simpl in H; discriminate.
Qed.

(** While it runs the dataset is first an empty file. *)
Lemma save_inventory_data_truncates df (f : gmap string string) :
  fs_states f (save_inventory_data csv_text df)
  = [f; f; <[CSV_FILE_PATH := ""]> f; <[CSV_FILE_PATH := csv_text df]> f].
Proof.
  unfold save_inventory_data, to_csv. simpl. rewrite lookup_insert_eq. simpl.
  now rewrite insert_insert_eq.
Qed.

Lemma save_inventory_data_reader df (f : gmap string string) old :
  old <> "" -> csv_text df <> "" ->
  ~ reader_sees_only CSV_FILE_PATH old (csv_text df)
      (fs_states f (save_inventory_data csv_text df)).
Proof.
  intros Hold Hnew H. rewrite save_inventory_data_truncates in H.
  unfold reader_sees_only in H.
  apply Forall_cons in H as [_ H]. apply Forall_cons in H as [_ H].
  apply Forall_cons in H as [H _]. rewrite lookup_insert_eq in H.
  destruct H as [[= H]|[= H]]; congruence.
Qed.

End PersistenceFacts.

(** C1 fails on the update path of [app.py]: the command is applied
    and saved by [save_inventory_data], which opens the dataset file
    itself for writing.  No temporary file and no rename are involved,
    and between the two calls a reader finds the dataset empty, which
    is neither its old nor its new content. *)
Theorem update_command_saves_in_place :
  let old_text := csv_text_plain sample_df in
  let new_text := csv_text_plain restocked_df in
  let files : gmap string string := {[ CSV_FILE_PATH := old_text ]} in
  let ops := [MakeDirs "./data"; OpenW CSV_FILE_PATH; Append CSV_FILE_PATH new_text] in
  apply_update_command csv_text_plain sample_df "Update product 11023 stock to 50"
  = Returned (Saved restocked_df
                "Successfully updated: ProductID: 11023, CurrentStock: 50" ops)
  /\ save_inventory_data csv_text_plain restocked_df = ops
  /\ ~ write_temp_then_rename CSV_FILE_PATH ops
  /\ fs_states files ops
     = [files; files; {[ CSV_FILE_PATH := "" ]}; {[ CSV_FILE_PATH := new_text ]}]
  /\ old_text <> "" /\ new_text <> ""
  /\ ~ reader_sees_only CSV_FILE_PATH old_text new_text (fs_states files ops).
Proof.
  intros old_text new_text files ops.
  assert (save_inventory_data csv_text_plain restocked_df = ops) as Hops by reflexivity.
  split; [vm_compute; reflexivity|]. split; [exact Hops|].
  rewrite <- Hops.
  split; [apply save_inventory_data_in_place|].
  split; [|split; [discriminate|split; [discriminate|]]].
  - rewrite save_inventory_data_truncates. unfold files.
    now rewrite !insert_singleton_eq.
  - apply save_inventory_data_reader; discriminate.
Qed.

(** ** Further properties: persistence *)

(** [atomic_csv_update] replaces an existing dataset atomically: its
    calls are a write to the temporary file followed by one replace, a
    reader of the dataset sees the old text or the new text at every
    moment, and at the end the dataset holds the new text and the
    temporary file is gone. *)
Theorem atomic_csv_update_atomic (csv_text : DataFrame -> string) (df : DataFrame)
    (csv_path : string) (f : gmap string string) (old : string) :
  f !! csv_path = Some old ->
  let ops := atomic_csv_update csv_text df csv_path in
  write_temp_then_rename csv_path ops
  /\ reader_sees_only csv_path old (csv_text df) (fs_states f ops)
  /\ last (fs_states f ops)
     = Some (<[csv_path := csv_text df]> (delete (csv_path +:+ ".tmp") f)).
Proof.
  intros Hold ops. split; [apply atomic_csv_update_mechanism|].
  split; [now apply atomic_csv_update_reader|].
  unfold ops, atomic_csv_update, to_csv. simpl.
  rewrite lookup_insert_eq. simpl. rewrite lookup_insert_eq. simpl.
  f_equal. f_equal. rewrite insert_insert_eq. apply delete_insert_eq.
Qed.

Lemma atomic_csv_update_atomic_witness :
  let f : gmap string string := {[ CSV_FILE_PATH := csv_text_plain sample_df ]} in
  let ops := atomic_csv_update csv_text_plain restocked_df CSV_FILE_PATH in
  write_temp_then_rename CSV_FILE_PATH ops
  /\ reader_sees_only CSV_FILE_PATH (csv_text_plain sample_df) (csv_text_plain restocked_df)
       (fs_states f ops)
  /\ last (fs_states f ops)
     = Some (<[CSV_FILE_PATH := csv_text_plain restocked_df]>
               (delete (CSV_FILE_PATH +:+ ".tmp") f)).
Proof.
  intros f.
  apply (atomic_csv_update_atomic csv_text_plain restocked_df CSV_FILE_PATH f
           (csv_text_plain sample_df)).
  reflexivity.
Defined.

(** ** Further properties: [apply_data_updates] *)

Lemma apply_data_updates_shape df updates df' message :
  apply_data_updates df updates = Returned (df', message) ->
  df_columns df' = df_columns df /\ length (df_rows df') = length (df_rows df).
Proof.
  unfold apply_data_updates.
  destruct (df_empty df); [now intros [= <- _]|].
  destruct (find_mask df updates) as [[mask|]|]; [|now intros [= <- _]|discriminate].
  destruct (existsb id mask); simpl; [|now intros [= <- _]].
  rewrite fold_apply_item. simpl.
  intros H.
  assert (df' = mkDataFrame (df_columns df)
            (fold_left (fun rows (kv : string * Value) => loc_set mask kv.1 kv.2 rows)
               (applied_fields df updates) (df_rows df))) as ->.
  { destruct (map field_msg (applied_fields df updates)); now injection H as <- _. }
  split; [reflexivity|apply fold_loc_set_length].
Qed.

Lemma apply_data_updates_messages df updates df' message :
  apply_data_updates df updates = Returned (df', message) ->
  In message [msg_no_data; msg_no_target; msg_not_found; msg_no_valid]
  \/ exists kv fs, message = msg_success (field_msg kv :: map field_msg fs)
                   /\ applied_fields df updates = kv :: fs.
Proof.
  unfold apply_data_updates.
  destruct (df_empty df); [intros [= _ <-]; simpl; auto|].
  destruct (find_mask df updates) as [[mask|]|]; [|intros [= _ <-]; simpl; auto|discriminate].
  destruct (existsb id mask); simpl; [|intros [= _ <-]; simpl; auto].
  rewrite fold_apply_item. simpl.
  destruct (applied_fields df updates) as [|kv fs]; simpl.
  - intros [= _ <-]. auto 10.
  - intros [= _ <-]. right. eauto.
Qed.

(** Whatever [apply_data_updates] returns has the columns and the
    number of rows of the frame it was given.  Its message is one of
    the four rejections, and then the frame is returned unchanged, or
    it is the success message listing exactly the fields of the update
    that are columns, of which there is at least one. *)
Theorem apply_data_updates_outcome (df : DataFrame) (updates : dict)
    (df' : DataFrame) (message : string) :
  apply_data_updates df updates = Returned (df', message) ->
  df_columns df' = df_columns df
  /\ length (df_rows df') = length (df_rows df)
  /\ ((In message [msg_no_data; msg_no_target; msg_not_found; msg_no_valid] /\ df' = df)
      \/ exists kv fs, applied_fields df updates = kv :: fs
                       /\ message = msg_success (map field_msg (kv :: fs))).
Proof.
  intros H. destruct (apply_data_updates_shape _ _ _ _ H) as [Hc Hl].
  split; [exact Hc|]. split; [exact Hl|].
  destruct (apply_data_updates_messages _ _ _ _ H) as [Hm|(kv & fs & -> & Ha)].
  - left. split; [exact Hm|].
    apply (apply_data_updates_rejected_unchanged _ _ _ _ H).
    intros fs ->. simpl in Hm.
    destruct Hm as [Hm|[Hm|[Hm|[Hm|[]]]]]; discriminate.
  - right. eauto.
Qed.

Lemma apply_data_updates_outcome_witness :
  df_columns same_name_df = df_columns same_name_df
  /\ length (df_rows same_name_df) = length (df_rows same_name_df)
  /\ ((In msg_not_found [msg_no_data; msg_no_target; msg_not_found; msg_no_valid]
       /\ same_name_df = same_name_df)
      \/ exists kv fs, applied_fields same_name_df stock_update = kv :: fs
                       /\ msg_not_found = msg_success (map field_msg (kv :: fs))).
Proof.
  apply (apply_data_updates_outcome same_name_df stock_update same_name_df msg_not_found).
  vm_compute. reflexivity.
Defined.

(** A cell whose column is no key of the update is never written. *)
Lemma apply_data_updates_other_keys df updates df' message k i r' :
  apply_data_updates df updates = Returned (df', message) ->
  dict_get k updates = None ->
  df_rows df' !! i = Some r' ->
  exists r, df_rows df !! i = Some r /\ r' !! k = r !! k.
Proof.
  unfold apply_data_updates.
  destruct (df_empty df); [intros [= <- _]; eauto|].
  destruct (find_mask df updates) as [[mask|]|]; [|intros [= <- _]; eauto|discriminate].
  destruct (existsb id mask); simpl; [|intros [= <- _]; eauto].
  rewrite fold_apply_item. simpl.
  intros H Hk Hr'.
  assert (df' = mkDataFrame (df_columns df)
            (fold_left (fun rows (kv : string * Value) => loc_set mask kv.1 kv.2 rows)
               (applied_fields df updates) (df_rows df))) as ->.
  { destruct (map field_msg (applied_fields df updates)); now injection H as <- _. }
  cbn [df_rows] in Hr'. rewrite fold_loc_set_lookup in Hr'.
  destruct (df_rows df !! i) as [r|] eqn:Hr; [|discriminate].
  simpl in Hr'. injection Hr' as <-. exists r. split; [reflexivity|].
  destruct (default false (mask !! i)); [|reflexivity].
  apply write_all_lookup_notin. rewrite dict_get_applied, Hk.
  now destruct (has_column k df).
Qed.

(** ** Further properties: the keys of a parsed command *)

Lemma dict_set_fst k v d x :
  x ∈ (dict_set k v d).*1 -> x = k \/ x ∈ d.*1.
Proof.
  induction d as [|[k' w] d IH]; simpl.
  - intros H. apply list_elem_of_singleton in H. now left.
  - destruct (String.eqb k' k); simpl; [now right|].
    intros [->|H]%elem_of_cons; [right; left|].
    destruct (IH H) as [->|H']; [now left|right; now right].
Qed.

Lemma dict_set_keys k v d :
  In k update_keys -> dict_keys_ok d -> dict_keys_ok (dict_set k v d).
Proof.
  intros Hk [Hnd Hall]. unfold dict_keys_ok.
  induction d as [|[k' w] d IH]; simpl.
  - split; [apply NoDup_singleton|]. apply Forall_singleton. exact Hk.
  - apply NoDup_cons in Hnd as [Hk' Hnd]. apply Forall_cons in Hall as [Hw Hall].
    destruct (String.eqb k' k) eqn:E; simpl.
    + split; [now apply NoDup_cons|]. now constructor.
    + destruct (IH Hnd Hall) as [IH1 IH2]. split; [|now constructor].
      apply NoDup_cons. split; [|exact IH1].
      intros Hin. apply dict_set_fst in Hin as [->|Hin]; [|now apply Hk'].
      now rewrite String.eqb_refl in E.
Qed.

Lemma str_in_In x l : str_in x l = true -> In x l.
Proof.
  unfold str_in. intros H. apply existsb_exists in H as (y & Hy & E).
  apply String.eqb_eq in E. now subst.
Qed.

Lemma extract_field_keys q d fp : dict_keys_ok d -> dict_keys_ok (extract_field q d fp).
Proof.
  intros Hd. destruct fp as [field pattern]. unfold extract_field.
  destruct (re_search pattern q) as [m|]; [|exact Hd].
  destruct (String.eqb field "product_name").
  { repeat apply dict_set_keys; auto; simpl; auto 10. }
  destruct (str_in field ["current_stock"; "sales_last_month"; "factory_distance"]) eqn:E1.
  { apply dict_set_keys; [|exact Hd]. apply str_in_In in E1.
    simpl in E1. destruct E1 as [<-|[<-|[<-|[]]]]; vm_compute; auto 10. }
  destruct (str_in field ["last_sold_date"; "expiry_date"]) eqn:E2.
  { apply dict_set_keys; [|exact Hd]. apply str_in_In in E2.
    simpl in E2. destruct E2 as [<-|[<-|[]]]; vm_compute; auto 10. }
  destruct (String.eqb field "location"); [|exact Hd].
  apply dict_set_keys; [simpl; auto 10|exact Hd].
Qed.

Lemma parse_update_query_keys q : dict_keys_ok (parse_update_query q).
Proof.
  unfold parse_update_query.
  assert (forall ps d, dict_keys_ok d ->
            dict_keys_ok (fold_left (extract_field (py_strip (py_lower q))) ps d)) as Hfold.
  { induction ps as [|fp ps IH]; intros d Hd; simpl; [exact Hd|].
    apply IH, extract_field_keys, Hd. }
  apply Hfold. destruct (re_search product_id_re _).
  - apply dict_set_keys; [simpl; auto|]. split; constructor.
  - split; constructor.
Qed.

Lemma dict_get_not_key k d :
  Forall (fun kv : string * Value => In kv.1 update_keys) d ->
  ~ In k update_keys -> dict_get k d = None.
Proof.
  intros Hall Hk. induction Hall as [|[k' v] d Hin _ IH]; simpl; [reflexivity|].
  destruct (String.eqb k' k) eqn:E; [|exact IH].
  apply String.eqb_eq in E. subst. now destruct Hk.
Qed.

(** [parse_update_query] produces distinct keys out of nine known
    ones.  A column that is none of them (TotalSales, FactoryDistanceKM,
    ...) is therefore never changed by applying a parsed command. *)
Theorem parse_never_sets_other_columns (q : string) (k : string) :
  ~ In k update_keys ->
  dict_get k (parse_update_query q) = None
  /\ NoDup (parse_update_query q).*1
  /\ forall df df' message i r',
       apply_data_updates df (parse_update_query q) = Returned (df', message) ->
       df_rows df' !! i = Some r' ->
       exists r, df_rows df !! i = Some r /\ r' !! k = r !! k.
Proof.
  intros Hk. destruct (parse_update_query_keys q) as [Hnd Hall].
  assert (dict_get k (parse_update_query q) = None) as Hnone
    by now apply dict_get_not_key.
  split; [exact Hnone|]. split; [exact Hnd|].
  intros df df' message i r' Ha Hr.
  exact (apply_data_updates_other_keys _ _ _ _ _ _ _ Ha Hnone Hr).
Qed.

Lemma parse_never_sets_other_columns_witness :
  dict_get "FactoryDistanceKM"
    (parse_update_query "Update product 11023 factory distance to 3") = None
  /\ NoDup (parse_update_query "Update product 11023 factory distance to 3").*1
  /\ forall df df' message i r',
       apply_data_updates df
         (parse_update_query "Update product 11023 factory distance to 3")
       = Returned (df', message) ->
       df_rows df' !! i = Some r' ->
       exists r, df_rows df !! i = Some r /\ r' !! "FactoryDistanceKM" = r !! "FactoryDistanceKM".
Proof.
  apply (parse_never_sets_other_columns "Update product 11023 factory distance to 3"
           "FactoryDistanceKM").
  intros H. simpl in H. repeat (destruct H as [H|H]; [discriminate|]). exact H.
Defined.

(** ** Further properties: the "Apply Updates" button *)

(** The "Apply Updates" button saves only when [apply_data_updates]
    answered with the success message and the frame really changed; it
    then saves that frame, with the same columns and number of rows, by
    the three calls of [save_inventory_data]. *)
Theorem apply_update_command_saves_only_changes (csv_text : DataFrame -> string)
    (df : DataFrame) (update_query : string) (updated_df : DataFrame)
    (message : string) (ops : list fs_op) :
  apply_update_command csv_text df update_query = Returned (Saved updated_df message ops) ->
  updated_df <> df
  /\ apply_data_updates df (parse_update_query update_query) = Returned (updated_df, message)
  /\ (exists kv fs, applied_fields df (parse_update_query update_query) = kv :: fs
                    /\ message = msg_success (map field_msg (kv :: fs)))
  /\ df_columns updated_df = df_columns df
  /\ length (df_rows updated_df) = length (df_rows df)
  /\ ops = [MakeDirs "./data"; OpenW CSV_FILE_PATH; Append CSV_FILE_PATH (csv_text updated_df)].
Proof.
  unfold apply_update_command.
  destruct (String.eqb (py_strip update_query) ""); [discriminate|].
  destruct (parse_update_query update_query) as [|kv0 u0] eqn:Hp; [discriminate|].
  destruct (apply_data_updates df (kv0 :: u0)) as [[df1 m1]|] eqn:Ha; [|discriminate].
  destruct (bool_decide (df1 = df)) eqn:Hd; simpl; [discriminate|].
  intros [= -> -> <-]. apply bool_decide_eq_false_1 in Hd.
  destruct (apply_data_updates_shape _ _ _ _ Ha) as [Hc Hl].
  destruct (apply_data_updates_messages _ _ _ _ Ha) as [Hm|(kv & fs & Hmsg & Happ)].
  - exfalso. apply Hd. apply (apply_data_updates_rejected_unchanged _ _ _ _ Ha).
    intros fs ->. simpl in Hm.
    destruct Hm as [Hm|[Hm|[Hm|[Hm|[]]]]]; discriminate.
  - repeat split; eauto.
Qed.

Lemma apply_update_command_saves_only_changes_witness :
  restocked_df <> sample_df
  /\ apply_data_updates sample_df (parse_update_query "Update product 11023 stock to 50")
     = Returned (restocked_df, "Successfully updated: ProductID: 11023, CurrentStock: 50")
  /\ (exists kv fs,
        applied_fields sample_df (parse_update_query "Update product 11023 stock to 50")
        = kv :: fs
        /\ "Successfully updated: ProductID: 11023, CurrentStock: 50"
           = msg_success (map field_msg (kv :: fs)))
  /\ df_columns restocked_df = df_columns sample_df
  /\ length (df_rows restocked_df) = length (df_rows sample_df)
  /\ save_inventory_data csv_text_plain restocked_df
     = [MakeDirs "./data"; OpenW CSV_FILE_PATH;
        Append CSV_FILE_PATH (csv_text_plain restocked_df)].
Proof.
  apply (apply_update_command_saves_only_changes csv_text_plain sample_df
           "Update product 11023 stock to 50").
  vm_compute. reflexivity.
Defined.

(** A command from which neither a ProductID nor a rename is parsed is
    never saved: it is ignored, fails to parse, or ends in a warning
    that there is no data or that the product could not be
    identified. *)
Theorem apply_update_command_needs_selector (csv_text : DataFrame -> string)
    (df : DataFrame) (update_query : string) :
  dict_get "ProductID" (parse_update_query update_query) = None ->
  dict_get "old_name" (parse_update_query update_query) = None ->
  In (apply_update_command csv_text df update_query)
     [Returned Ignored; Returned ParseFailed;
      Returned (Warned msg_no_data); Returned (Warned msg_no_target)].
Proof.
  intros Hpid Hold. unfold apply_update_command.
  destruct (String.eqb (py_strip update_query) ""); [simpl; auto|].
  destruct (parse_update_query update_query) as [|kv0 u0] eqn:Hp; [simpl; auto|].
  unfold apply_data_updates.
  destruct (df_empty df).
  - rewrite bool_decide_eq_true_2 by reflexivity. simpl. auto.
  - unfold find_mask. rewrite Hpid, Hold.
    rewrite bool_decide_eq_true_2 by reflexivity. simpl. auto.
Qed.

Lemma apply_update_command_needs_selector_witness :
  In (apply_update_command csv_text_plain sample_df
        "Update Organic Apples location to SectionB")
     [Returned Ignored; Returned ParseFailed;
      Returned (Warned msg_no_data); Returned (Warned msg_no_target)].
Proof.
  apply (apply_update_command_needs_selector csv_text_plain sample_df
           "Update Organic Apples location to SectionB");
    vm_compute; reflexivity.
Defined.

(** ** Further properties: what the numeric groups capture *)

Lemma star_greedy_inv cl k s c m :
  star_greedy cl k s c = Some m ->
  exists w s', s = (w ++ s')%list /\ Forall (fun a => cmatch cl a = true) w
               /\ k s' c = Some m.
Proof.
  induction s as [|a s IH]; simpl.
  - intros H. exists [], []. auto.
  - destruct (cmatch cl a) eqn:Ha.
    + intros H. apply orelse_some in H as [H|H].
      * destruct (IH H) as (w & s' & -> & Hw & Hk).
        exists (a :: w), s'. repeat split; auto.
      * exists [], (a :: s). auto.
    + intros H. exists [], (a :: s). auto.
Qed.

Section Postcondition.

Variable Q : caps -> Prop.

Lemma star_greedy_post cl k : cont_post Q k -> cont_post Q (star_greedy cl k).
Proof.
  intros Hk s c m H. destruct (star_greedy_inv _ _ _ _ _ H) as (_ & s' & _ & _ & H').
  exact (Hk _ _ _ H').
Qed.

Lemma star_lazy_post cl k : cont_post Q k -> cont_post Q (star_lazy cl k).
Proof.
  intros Hk s. induction s as [|a s IH]; intros c m; simpl.
  - destruct (k [] c) eqn:E; [|discriminate]. intros [= <-]. exact (Hk _ _ _ E).
  - destruct (k (a :: s) c) eqn:E.
    + intros [= <-]. exact (Hk _ _ _ E).
    + destruct (cmatch cl a); [apply IH|discriminate].
Qed.

Lemma rmatch_post r : forall k, cont_post Q k -> cont_post Q (rmatch r k).
Proof.
  induction r as [|cl|r1 IH1 r2 IH2|r1 IH1 r2 IH2|cl|cl|n r IH]; intros k Hk; simpl.
  - exact Hk.
  - intros [|a s] c m; [discriminate|]. destruct (cmatch cl a); [apply Hk|discriminate].
  - apply IH1, IH2, Hk.
  - intros s c m H. apply orelse_some in H as [H|H].
    + exact (IH1 k Hk _ _ _ H).
    + exact (IH2 k Hk _ _ _ H).
  - now apply star_greedy_post.
  - now apply star_lazy_post.
  - intros s c m. apply IH. intros s' c' m'. apply Hk.
Qed.

End Postcondition.

Lemma digit_group_last s c m :
  rmatch (RGrp 1 (plus CDigit)) (fun _ c => Some c) s c = Some m -> digits_ok m.
Proof.
  unfold plus. simpl. destruct s as [|a s1]; [discriminate|].
  destruct (is_digit a) eqn:Ha; [|discriminate].
  intros H. apply star_greedy_inv in H as (w & s' & -> & Hw & [= <-]).
  unfold digits_ok. cbn [group_chars Nat.eqb].
  replace (S (length (w ++ s')) - length s') with (S (length w))
    by (rewrite length_app; lia).
  cbn [take]. rewrite take_app_length. constructor; [exact Ha|exact Hw].
Qed.

Lemma ends_with_digits_ok r :
  ends_with_digits r -> cont_post digits_ok (rmatch r (fun _ c => Some c)).
Proof.
  induction 1 as [|r1 r2 _ IH].
  - intros s c m. apply digit_group_last.
  - simpl. apply rmatch_post. exact IH.
Qed.

Lemma re_search_digits r q m :
  ends_with_digits r -> re_search r q = Some m -> digits_ok m.
Proof.
  intros Hr. unfold re_search. generalize (chars q). intros s.
  induction s as [|a s IH]; simpl.
  - destruct (rmatch r _ [] []) eqn:E; [|discriminate].
    intros [= <-]. exact (ends_with_digits_ok r Hr _ _ _ E).
  - destruct (rmatch r _ (a :: s) []) eqn:E; [|exact IH].
    intros [= <-]. exact (ends_with_digits_ok r Hr _ _ _ E).
Qed.

Lemma is_digit_code a : is_digit a = true -> 48 <= code a.
Proof.
  unfold is_digit, in_range. intros H. apply andb_true_iff in H as [H _].
  now apply Nat.leb_le in H.
Qed.

Lemma py_int_nonneg s :
  Forall (fun a => is_digit a = true) (chars s) -> (0 <= py_int s)%Z.
Proof.
  intros H. unfold py_int.
  assert (Forall (fun a => is_digit a = true) (chars (py_strip s))) as Hs.
  { unfold py_strip. rewrite chars_text. now apply rstrip_Forall, lstrip_Forall. }
  revert Hs. generalize (chars (py_strip s)). intros l Hl.
  assert (forall acc, (0 <= acc)%Z ->
            (0 <= fold_left (fun acc a => acc * 10 + (Z.of_nat (code a) - 48)) l acc)%Z)
    as Hfold.
  { induction Hl as [|a l Ha _ IH]; intros acc Hacc; simpl; [exact Hacc|].
    apply IH. apply is_digit_code in Ha. lia. }
  now apply Hfold.
Qed.

Lemma group_digits_nonneg r q m :
  ends_with_digits r -> re_search r q = Some m ->
  value_nonneg (VInt (py_int (group m 1))).
Proof.
  intros Hr Hm. simpl. apply py_int_nonneg. unfold group. rewrite chars_text.
  exact (re_search_digits r q m Hr Hm).
Qed.

Lemma dict_set_nonneg k v d : value_nonneg v -> dict_nonneg d -> dict_nonneg (dict_set k v d).
Proof.
  intros Hv. induction 1 as [|[k' w] d Hw Hd IH]; simpl.
  - now apply Forall_singleton.
  - destruct (String.eqb k' k); constructor; auto.
Qed.

Lemma extract_field_nonneg q d field pattern :
  (str_in field ["current_stock"; "sales_last_month"; "factory_distance"] = true ->
   ends_with_digits pattern) ->
  dict_nonneg d -> dict_nonneg (extract_field q d (field, pattern)).
Proof.
  intros Hnum Hd. unfold extract_field.
  destruct (re_search pattern q) as [m|] eqn:Hm; [|exact Hd].
  destruct (String.eqb field "product_name").
  { repeat apply dict_set_nonneg; simpl; auto. }
  destruct (str_in field ["current_stock"; "sales_last_month"; "factory_distance"]).
  { apply dict_set_nonneg; [|exact Hd]. eapply group_digits_nonneg; eauto. }
  destruct (str_in field ["last_sold_date"; "expiry_date"]).
  { apply dict_set_nonneg; simpl; auto. }
  destruct (String.eqb field "location"); [|exact Hd].
  apply dict_set_nonneg; simpl; auto.
Qed.

Lemma patterns_numeric :
  Forall (fun fp : string * regex =>
            str_in fp.1 ["current_stock"; "sales_last_month"; "factory_distance"] = true ->
            ends_with_digits fp.2) patterns.
Proof.
  unfold patterns.
  repeat (apply Forall_cons; split; [simpl; first [discriminate | intros _; repeat constructor]|]).
  constructor.
Qed.

Lemma product_id_re_digits : ends_with_digits product_id_re.
Proof. unfold product_id_re. repeat constructor. Qed.

Lemma parse_update_query_nonneg q : dict_nonneg (parse_update_query q).
Proof.
  unfold parse_update_query.
  assert (forall ps d,
            Forall (fun fp : string * regex =>
              str_in fp.1 ["current_stock"; "sales_last_month"; "factory_distance"] = true ->
              ends_with_digits fp.2) ps ->
            dict_nonneg d ->
            dict_nonneg (fold_left (extract_field (py_strip (py_lower q))) ps d)) as Hfold.
  { induction ps as [|[field pattern] ps IH]; intros d Hps Hd; simpl; [exact Hd|].
    apply Forall_cons in Hps as [Hfp Hps].
    apply IH; [exact Hps|]. now apply extract_field_nonneg. }
  apply Hfold; [exact patterns_numeric|].
  destruct (re_search product_id_re _) as [m|] eqn:Hm; [|constructor].
  apply dict_set_nonneg; [|constructor].
  exact (group_digits_nonneg _ _ _ product_id_re_digits Hm).
Qed.

(** Every int that [parse_update_query] extracts (ProductID,
    CurrentStock, SalesLastMonth, FactoryDistance) is at least 0: the
    digits pattern takes no sign. *)
Theorem parse_update_query_ints_nonneg (q key : string) (n : Z) :
  dict_get key (parse_update_query q) = Some (VInt n) -> (0 <= n)%Z.
Proof.
  intros H. apply dict_get_In in H.
  pose proof (parse_update_query_nonneg q) as Hall.
  unfold dict_nonneg in Hall. rewrite List.Forall_forall in Hall.
  exact (Hall _ H).
Qed.

Lemma parse_update_query_ints_nonneg_witness :
  dict_get "CurrentStock" (parse_update_query "Update product 11023 stock to 50")
  = Some (VInt 50)
  /\ (0 <= 50)%Z.
Proof.
  split; [vm_compute; reflexivity|].
  apply (parse_update_query_ints_nonneg "Update product 11023 stock to 50" "CurrentStock" 50).
  vm_compute. reflexivity.
Defined.

(** ** Further properties: case and white space of a command *)


















(** ** Further properties: the word "update" *)

Lemma is_prefix_app p post : is_prefix p (p ++ post) = true.
Proof.
  induction p as [|a p IH]; simpl; [reflexivity|].
  now rewrite Ascii.eqb_refl, IH.
Qed.

Lemma contains_app pre p post : contains p (pre ++ p ++ post) = true.
Proof.
  induction pre as [|a pre IH]; simpl.
  - destruct (p ++ post)%list eqn:E; simpl; rewrite <- E, is_prefix_app; reflexivity.
  - rewrite IH. apply orb_true_r.
Qed.

Lemma lit_chars_match w : forall k s c m,
  rmatch (fold_right (fun a r => RSeq (RChr (CLit a)) r) REps w) k s c = Some m ->
  exists s', s = (w ++ s')%list /\ k s' c = Some m.
Proof.
  induction w as [|a w IH]; intros k s c m; simpl.
  - intros H. now exists s.
  - destruct s as [|b s]; [discriminate|].
    destruct (Ascii.eqb b a) eqn:E; [|discriminate].
    apply Ascii.eqb_eq in E. subst b.
    intros H. apply IH in H as (s' & -> & H). now exists s'.
Qed.

Lemma search_lit_contains w r s m :
  search_from (RSeq (lit w) r) s = Some m -> contains (chars w) s = true.
Proof.
  induction s as [|a s IH]; simpl.
  - destruct (rmatch (lit w) _ [] []) eqn:E; [|discriminate]. intros _.
    apply lit_chars_match in E as (s' & Hs & _).
    symmetry in Hs. apply List.app_eq_nil in Hs as [Hw _]. now rewrite Hw.
  - destruct (rmatch (lit w) _ (a :: s) []) eqn:E.
    + intros _. apply lit_chars_match in E as (s' & Hs & _).
      rewrite Hs. rewrite is_prefix_app. reflexivity.
    + intros H. rewrite (IH H). apply orb_true_r.
Qed.

Lemma lstrip_suffix l : exists pre, l = (pre ++ lstrip l)%list.
Proof.
  induction l as [|a l [pre IH]]; simpl; [now exists []|].
  destruct (is_space a); [|now exists []].
  exists (a :: pre). simpl. now rewrite <- IH.
Qed.

Lemma rstrip_prefix l : exists post, l = (rstrip l ++ post)%list.
Proof.
  unfold rstrip. destruct (lstrip_suffix (rev l)) as [pre H].
  exists (rev pre). rewrite <- rev_app_distr, <- H. now rewrite rev_involutive.
Qed.

Lemma contains_inside p pre l post :
  contains p l = true -> contains p (pre ++ l ++ post) = true.
Proof.
  assert (forall p l, contains p l = true -> exists a b, l = (a ++ p ++ b)%list) as Hex.
  { clear. intros p l. induction l as [|x l IH]; simpl.
    - destruct p; [|discriminate]. intros _. now exists [], [].
    - intros H. apply orb_true_iff in H as [H|H].
      + exists []. simpl.
        assert (forall p l, is_prefix p l = true -> exists b, l = (p ++ b)%list) as Hp.
        { clear. induction p as [|a p IH]; intros l; simpl; [now exists l|].
          destruct l as [|b l]; [discriminate|].
          intros H. apply andb_true_iff in H as [E H].
          apply Ascii.eqb_eq in E. subst. destruct (IH _ H) as [t ->]. now exists t. }
        now apply Hp.
      + destruct (IH H) as (a & b & ->). now exists (x :: a), b. }
  intros H. destruct (Hex _ _ H) as (a & b & ->).
  replace (pre ++ (a ++ p ++ b) ++ post)%list with ((pre ++ a) ++ p ++ (b ++ post))%list
    by (now rewrite <- !app_assoc).
  apply contains_app.
Qed.

Lemma contains_strip p q :
  contains p (chars (py_strip q)) = true -> contains p (chars q) = true.
Proof.
  unfold py_strip. rewrite chars_text. intros H.
  destruct (lstrip_suffix (chars q)) as [pre Hpre].
  destruct (rstrip_prefix (lstrip (chars q))) as [post Hpost].
  rewrite Hpre, Hpost. now apply contains_inside.
Qed.

Lemma patterns_start_with_update :
  Forall (fun fp : string * regex => exists r, fp.2 = RSeq (lit "update") r) patterns.
Proof.
  unfold patterns.
  repeat (apply Forall_cons; split; [eexists; reflexivity|]). constructor.
Qed.

Lemma fold_extract_without_update q ps d :
  Forall (fun fp : string * regex => exists r, fp.2 = RSeq (lit "update") r) ps ->
  str_contains "update" q = false ->
  fold_left (extract_field q) ps d = d.
Proof.
  intros Hps Hq. revert d. induction Hps as [|[field pattern] ps [r Hr] _ IH];
    intros d; simpl; [reflexivity|].
  simpl in Hr. subst pattern.
  destruct (re_search (RSeq (lit "update") r) q) as [m|] eqn:E.
  - apply search_lit_contains in E. unfold str_contains in Hq. congruence.
  - apply IH.
Qed.

Lemma write_own_id (pid : Value) (rows : list (gmap string Value)) :
  loc_set (map (cell_eq pid) (map (fun r : gmap string Value => r !! "ProductID") rows))
    "ProductID" pid rows = rows.
Proof.
  induction rows as [|r rows IH]; simpl; [reflexivity|]. rewrite IH. f_equal.
  unfold cell_eq. destruct (r !! "ProductID") as [w|] eqn:E; [|reflexivity].
  destruct (bool_decide (w = pid)) eqn:D; [|reflexivity].
  apply bool_decide_eq_true_1 in D. subst. now apply insert_id.
Qed.

(** A command in which the word "update" does not occur (in any
    case) yields at most a ProductID; applying it returns the frame
    unchanged, and the "Apply Updates" button never saves it. *)
Theorem command_without_update_changes_nothing (q : string) :
  str_contains "update" (py_lower q) = false ->
  (parse_update_query q = []
   \/ exists n, (0 <= n)%Z /\ parse_update_query q = [("ProductID", VInt n)])
  /\ (forall df df' message,
        apply_data_updates df (parse_update_query q) = Returned (df', message) ->
        df' = df)
  /\ (forall csv_text df updated_df message ops,
        apply_update_command csv_text df q <> Returned (Saved updated_df message ops)).
Proof.
  intros Hq.
  assert (str_contains "update" (py_strip (py_lower q)) = false) as Hq'.
  { unfold str_contains in *. destruct (contains _ (chars (py_strip _))) eqn:E; [|reflexivity].
    apply contains_strip in E. congruence. }
  assert (parse_update_query q = []
          \/ exists n, (0 <= n)%Z /\ parse_update_query q = [("ProductID", VInt n)]) as Hp.
  { unfold parse_update_query.
    rewrite (fold_extract_without_update _ _ _ patterns_start_with_update Hq').
    destruct (re_search product_id_re _) as [m|] eqn:Hm; [right|now left].
    eexists. split; [|reflexivity].
    exact (group_digits_nonneg _ _ _ product_id_re_digits Hm). }
  assert (forall df df' message,
            apply_data_updates df (parse_update_query q) = Returned (df', message) ->
            df' = df) as Hsame.
  { intros df df' message. destruct Hp as [->|(n & _ & ->)].
    - unfold apply_data_updates, find_mask. simpl.
      destruct (df_empty df); now intros [= <- _].
    - unfold apply_data_updates.
      destruct (df_empty df); [now intros [= <- _]|].
      destruct (find_mask df [("ProductID", VInt n)]) as [[mask|]|] eqn:Hm;
        [|now intros [= <- _]|discriminate].
      destruct (existsb id mask); cbn [negb]; [|now intros [= <- _]].
      rewrite fold_apply_item.
      unfold find_mask, df_col in Hm. cbn [dict_get String.eqb Ascii.eqb Bool.eqb] in Hm.
      destruct (has_column "ProductID" df) eqn:Hc; [|discriminate].
      injection Hm as <-.
      assert (applied_fields df [("ProductID", VInt n)] = [("ProductID", VInt n)]) as ->.
      { unfold applied_fields. cbn [List.filter fst]. now rewrite Hc. }
      cbn [fold_left fst snd]. rewrite write_own_id.
      intros [= <- _]. now destruct df. }
  split; [exact Hp|]. split; [exact Hsame|].
  intros csv_text df updated_df message ops. unfold apply_update_command.
  destruct (String.eqb (py_strip q) ""); [discriminate|].
  destruct (parse_update_query q) as [|kv0 u0]; [discriminate|].
  destruct (apply_data_updates df (kv0 :: u0)) as [[df1 m1]|] eqn:Ha; [|discriminate].
  rewrite (Hsame _ _ _ Ha). rewrite bool_decide_eq_true_2 by reflexivity. discriminate.
Qed.

Lemma command_without_update_changes_nothing_witness :
  (parse_update_query "Set product 11023 stock to 50" = []
   \/ exists n, (0 <= n)%Z
                /\ parse_update_query "Set product 11023 stock to 50" = [("ProductID", VInt n)])
  /\ (forall df df' message,
        apply_data_updates df (parse_update_query "Set product 11023 stock to 50")
        = Returned (df', message) ->
        df' = df)
  /\ (forall csv_text df updated_df message ops,
        apply_update_command csv_text df "Set product 11023 stock to 50"
        <> Returned (Saved updated_df message ops)).
Proof.
  apply (command_without_update_changes_nothing "Set product 11023 stock to 50").
  vm_compute. reflexivity.
Defined.

(** ** Further properties: applying a command twice *)


Lemma selected_rows (sel : gmap string Value -> bool) items rows :
  fold_left (fun rows' (kv : string * Value) => loc_set (map sel rows) kv.1 kv.2 rows')
    items rows
  = map (fun r => if sel r then write_all items r else r) rows.
Proof.
  apply list_eq. intros j. rewrite fold_loc_set_lookup.
  change (map ?f ?l) with (f <$> l). rewrite !list_lookup_fmap.
  now destruct (rows !! j).
Qed.





(** ** Further properties: the document *)

Lemma is_infix_trans a b c : is_infix a b -> is_infix b c -> is_infix a c.
Proof.
  intros (p & q & ->) (p' & q' & ->). exists (p' +:+ p), (q +:+ q').
  now rewrite !str_app_assoc.
Qed.

Lemma create_document_text_lines pid name loc cs lsd e slm ts fd now :
  create_document_text pid name loc cs lsd e slm ts fd now
  = py_join nl (document_lines pid name loc cs lsd e slm ts fd (stock_status cs)
                  (expiry_status e now) (demand_status slm) (distance_status fd)).
Proof.
  unfold create_document_text, clk_bind, clk_ret. apply document_text_strip.
Qed.

(** Whatever the record, its document contains every field value
    behind its caption and every computed label: stripping the
    document removes nothing but the line feeds around it. *)
Theorem create_document_text_embeds_fields
    (product_id : Z) (product_name location : string) (current_stock : Z)
    (last_sold_date expiry_date : string)
    (sales_last_month total_sales factory_distance_km : Z) (now : date) :
  Forall (fun v => is_infix v
            (create_document_text product_id product_name location current_stock
               last_sold_date expiry_date sales_last_month total_sales
               factory_distance_km now))
    [ "Product Information:";
      "Product ID: " +:+ str_of_int product_id;
      "Product Name: " +:+ product_name;
      "Location: " +:+ location;
      "Current Stock: " +:+ str_of_int current_stock +:+ " units";
      "Last Sold Date: " +:+ last_sold_date;
      "Expiry Date: " +:+ expiry_date;
      "Sales Last Month: " +:+ str_of_int sales_last_month +:+ " units";
      "Total Sales: " +:+ str_of_int total_sales +:+ " units";
      "Factory Distance: " +:+ str_of_int factory_distance_km +:+ " km";
      "(" +:+ stock_status current_stock +:+ ")";
      "(" +:+ expiry_status expiry_date now +:+ ")";
      "(" +:+ demand_status sales_last_month +:+ ")";
      "(" +:+ distance_status factory_distance_km +:+ ")";
      "Status Summary: " +:+ stock_status current_stock +:+ ", "
        +:+ expiry_status expiry_date now +:+ ", " +:+ demand_status sales_last_month;
      "Priority: " +:+ priority (stock_status current_stock)
                         (expiry_status expiry_date now) ].
Proof.
  rewrite create_document_text_lines.
  set (lines := document_lines _ _ _ _ _ _ _ _ _ _ _ _ _).
  assert (forall v line, In line lines -> is_infix v line -> is_infix v (py_join nl lines))
    as Hin.
  { intros v line Hl Hv. eapply is_infix_trans; [exact Hv|now apply py_join_infix]. }
  assert (forall a b c : string, is_infix b (a +:+ b +:+ c)) as Hmid.
  { intros a b c. now exists a, c. }
  assert (forall a b : string, is_infix a (a +:+ b)) as Hpre.
  { intros a b. apply is_infix_app_r, is_infix_refl. }
  assert (forall a b : string, is_infix b (a +:+ b)) as Hsuf.
  { intros a b. apply is_infix_app_l, is_infix_refl. }
  repeat (apply Forall_cons; split); [..|constructor].
  - apply (Hin _ _ (or_introl eq_refl)), is_infix_refl.
  - apply (Hin _ _ (or_intror (or_introl eq_refl))), is_infix_refl.
  - apply (Hin _ (nth 2 lines "")); [simpl; auto 20|apply is_infix_refl].
  - apply (Hin _ (nth 3 lines "")); [simpl; auto 20|apply is_infix_refl].
  - apply (Hin _ (nth 4 lines "")); [simpl; auto 20|].
    unfold is_infix. exists (""). exists ((" (" +:+ stock_status current_stock +:+ ")")).
    cbn [nth lines document_lines]. rewrite ?str_app_assoc, ?str_app_nil_r. reflexivity.
  - apply (Hin _ (nth 5 lines "")); [simpl; auto 20|apply is_infix_refl].
  - apply (Hin _ (nth 6 lines "")); [simpl; auto 20|].
    unfold is_infix. exists (""). exists ((" (" +:+ expiry_status expiry_date now +:+ ")")).
    cbn [nth lines document_lines]. rewrite ?str_app_assoc, ?str_app_nil_r. reflexivity.
  - apply (Hin _ (nth 7 lines "")); [simpl; auto 20|].
    unfold is_infix. exists (""). exists ((" (" +:+ demand_status sales_last_month +:+ ")")).
    cbn [nth lines document_lines]. rewrite ?str_app_assoc, ?str_app_nil_r. reflexivity.
  - apply (Hin _ (nth 8 lines "")); [simpl; auto 20|apply is_infix_refl].
  - apply (Hin _ (nth 9 lines "")); [simpl; auto 20|].
    unfold is_infix. exists (""). exists ((" (" +:+ distance_status factory_distance_km +:+ ")")).
    cbn [nth lines document_lines]. rewrite ?str_app_assoc, ?str_app_nil_r. reflexivity.
  - apply (Hin _ (nth 4 lines "")); [simpl; auto 20|].
    unfold is_infix. exists (("Current Stock: " +:+ str_of_int current_stock +:+ " units ")). exists ("").
    cbn [nth lines document_lines]. rewrite ?str_app_assoc, ?str_app_nil_r. reflexivity.
  - apply (Hin _ (nth 6 lines "")); [simpl; auto 20|].
    unfold is_infix. exists (("Expiry Date: " +:+ expiry_date +:+ " ")). exists ("").
    cbn [nth lines document_lines]. rewrite ?str_app_assoc, ?str_app_nil_r. reflexivity.
  - apply (Hin _ (nth 7 lines "")); [simpl; auto 20|].
    unfold is_infix. exists (("Sales Last Month: " +:+ str_of_int sales_last_month +:+ " units ")). exists ("").
    cbn [nth lines document_lines]. rewrite ?str_app_assoc, ?str_app_nil_r. reflexivity.
  - apply (Hin _ (nth 9 lines "")); [simpl; auto 20|].
    unfold is_infix. exists (("Factory Distance: " +:+ str_of_int factory_distance_km +:+ " km ")). exists ("").
    cbn [nth lines document_lines]. rewrite ?str_app_assoc, ?str_app_nil_r. reflexivity.
  - apply (Hin _ (nth 10 lines "")); [simpl; auto 20|apply is_infix_refl].
  - apply (Hin _ (nth 11 lines "")); [simpl; auto 20|apply is_infix_refl].
Qed.

Lemma py_join_snoc sep (parts : list string) a last :
  py_join sep ((a :: parts) ++ [last]) = py_join sep (a :: parts) +:+ sep +:+ last.
Proof.
  revert a. induction parts as [|b parts IH]; intros a; [reflexivity|].
  change ((a :: b :: parts) ++ [last])%list with (a :: ((b :: parts) ++ [last]))%list.
  cbn [app]. rewrite py_join_cons. cbn [app] in IH. rewrite IH.
  rewrite py_join_cons. now rewrite !str_app_assoc.
Qed.

Lemma priority_rule cs e now :
  priority (stock_status cs) (expiry_status e now)
  = if (cs <? 10)%Z
       || match strptime_ymd e with
          | Some d =>
              let days := (toordinal d - toordinal (mkdate 2025 9 22))%Z in
              (0 <=? days)%Z && (days <=? 7)%Z
          | None => false
          end
    then "HIGH PRIORITY" else "NORMAL PRIORITY".
Proof.
  unfold expiry_status, clk_ret.
  assert (forall x, priority (stock_status cs) x
                    = if (cs <? 10)%Z || String.eqb x "EXPIRES SOON - URGENT"
                      then "HIGH PRIORITY" else "NORMAL PRIORITY") as Hs.
  { intros x. unfold stock_status.
    destruct (Z.eqb_spec cs 0) as [->|H0]; [reflexivity|].
    destruct (Z.ltb_spec cs 10) as [H1|H1]; [reflexivity|].
    destruct (cs <? 50)%Z; reflexivity. }
  rewrite Hs. destruct (cs <? 10)%Z; [reflexivity|]. simpl.
  destruct (strptime_ymd e) as [d|]; [|reflexivity]. cbv zeta.
  generalize (toordinal d - toordinal (mkdate 2025 9 22))%Z. intros days.
  destruct (Z.ltb_spec days 0), (Z.leb_spec 0 days); try lia; [reflexivity|].
  destruct (days <=? 7)%Z; [reflexivity|]. destruct (days <=? 30)%Z; reflexivity.
Qed.

(** The document ends with its priority line, and that line reads
    HIGH PRIORITY exactly when the stock is below 10 or the expiry date
    parses and lies 0 to 7 days after 2025-09-22. *)
Theorem create_document_text_priority
    (product_id : Z) (product_name location : string) (current_stock : Z)
    (last_sold_date expiry_date : string)
    (sales_last_month total_sales factory_distance_km : Z) (now : date) :
  exists body,
    create_document_text product_id product_name location current_stock last_sold_date
      expiry_date sales_last_month total_sales factory_distance_km now
    = body +:+ nl +:+ "Priority: "
      +:+ (if (current_stock <? 10)%Z
              || match strptime_ymd expiry_date with
                 | Some expiry =>
                     let days := (toordinal expiry - toordinal (mkdate 2025 9 22))%Z in
                     (0 <=? days)%Z && (days <=? 7)%Z
                 | None => false
                 end
           then "HIGH PRIORITY" else "NORMAL PRIORITY").
Proof.
  rewrite create_document_text_lines. unfold document_lines. rewrite priority_rule.
  match goal with
  | |- context [py_join nl (?a :: ?l)] =>
      change (a :: l) with ((a :: removelast l) ++ [List.last l ""])%list
  end.
  rewrite py_join_snoc. eexists. reflexivity.
Qed.

(** ** Further properties: the context of the prompt *)

Lemma str_of_int_nonempty n : str_of_int n <> "".
Proof.
  unfold str_of_int. destruct (Z.to_int n) as [d|d]; simpl; [|discriminate].
  destruct d; simpl; discriminate.
Qed.

Lemma truthy_text v : truthy v = true -> str_of_value v <> "".
Proof.
  destruct v as [n|s]; simpl; [intros _; apply str_of_int_nonempty|].
  destruct (String.eqb_spec s ""); [discriminate|auto].
Qed.

Lemma add_context_part_nonempty parts d :
  doc_has_text d -> Forall (fun p => p <> "") parts ->
  Forall (fun p => p <> "") (add_context_part parts d).
Proof.
  intros Hd Hp. destruct d as [t|d|s|s]; simpl in *.
  - apply Forall_app. split; [exact Hp|now apply Forall_singleton].
  - destruct (truthy _) eqn:E; [|exact Hp].
    apply Forall_app. split; [exact Hp|]. apply Forall_singleton. now apply truthy_text.
  - apply Forall_app. split; [exact Hp|now apply Forall_singleton].
  - apply Forall_app. split; [exact Hp|now apply Forall_singleton].
Qed.

(** When no retrieved document is an empty str, an object with an
    empty text or another object with an empty rendering, the context
    is not empty; the prompt contains the context and the query. *)
Theorem build_context_never_empty_for_texts (docs : list doc) (query : string) :
  Forall doc_has_text docs ->
  (exists a s, build_context docs = String a s)
  /\ is_infix (build_context docs) (build_warehouse_prompt docs query)
  /\ is_infix query (build_warehouse_prompt docs query).
Proof.
  intros Hdocs. split; [|split].
  - assert (forall parts, Forall (fun p => p <> "") parts ->
              Forall (fun p => p <> "") (fold_left add_context_part docs parts)) as Hfold.
    { induction Hdocs as [|d docs Hd _ IH]; intros parts Hp; simpl; [exact Hp|].
      apply IH. now apply add_context_part_nonempty. }
    pose proof (build_context_nonempty docs (Hfold [] (List.Forall_nil _))) as Hne.
    destruct (build_context docs) as [|a s]; [contradiction|eauto].
  - apply build_warehouse_prompt_context.
  - unfold build_warehouse_prompt, is_infix.
    exists (prompt_head +:+ build_context docs +:+ nl +:+ nl +:+ "USER QUERY: ").
    exists prompt_tail. now rewrite !str_app_assoc.
Qed.

Lemma build_context_never_empty_for_texts_witness :
  (exists a s, build_context [DocDict [("text", VStr "")]; DocDict [("chunk", VStr "abc")]]
               = String a s)
  /\ is_infix (build_context [DocDict [("text", VStr "")]; DocDict [("chunk", VStr "abc")]])
       (build_warehouse_prompt [DocDict [("text", VStr "")]; DocDict [("chunk", VStr "abc")]]
          "Which products are running low on stock?")
  /\ is_infix "Which products are running low on stock?"
       (build_warehouse_prompt [DocDict [("text", VStr "")]; DocDict [("chunk", VStr "abc")]]
          "Which products are running low on stock?").
Proof.
  apply (build_context_never_empty_for_texts
           [DocDict [("text", VStr "")]; DocDict [("chunk", VStr "abc")]]
           "Which products are running low on stock?").
  repeat constructor.
Defined.

(** ** Further properties: the metrics of the dashboard *)

Lemma filter_length_mono {A} (P Q : A -> Prop)
    `{forall x, Decision (P x)} `{forall x, Decision (Q x)} (l : list A) :
  (forall x, P x -> Q x) -> length (filter P l) <= length (filter Q l).
Proof.
  intros HPQ. induction l as [|x l IH]; [reflexivity|].
  rewrite !filter_cons. destruct (decide (P x)) as [Hp|Hp].
  - rewrite decide_True by auto. simpl. lia.
  - destruct (decide (Q x)); simpl; lia.
Qed.

(** The "Expired Items" metric never decreases as the clock advances
    and never exceeds the number of records. *)
Theorem expired_items_grows_with_time (df : DataFrame) (day1 day2 : date) :
  (toordinal day1 <= toordinal day2)%Z ->
  expired_items df day1 <= expired_items df day2
  /\ expired_items df day2 <= length (df_rows df).
Proof.
  intros Hle. unfold expired_items, clk_bind, clk_ret, today. split.
  - apply filter_length_mono. intros row. unfold row_is_expired.
    destruct (row !! "ExpiryDate") as [[n|s]|]; try discriminate.
    destruct (strptime_ymd s) as [d|]; [|discriminate].
    intros H. apply Z.ltb_lt in H. apply Z.ltb_lt. lia.
  - apply length_filter.
Qed.

Lemma expired_items_grows_with_time_witness :
  expired_items sample_df (mkdate 2025 9 24) <= expired_items sample_df (mkdate 2025 10 1)
  /\ expired_items sample_df (mkdate 2025 10 1) <= length (df_rows sample_df).
Proof.
  apply (expired_items_grows_with_time sample_df (mkdate 2025 9 24) (mkdate 2025 10 1)).
  vm_compute. discriminate.
Defined.

(** On 2025-09-22 the "Expired Items" metric of [app.py] counts a
    record exactly when [create_document_text] labels it EXPIRED. *)
Theorem expired_metric_agrees_with_label
    (row : gmap string Value) (expiry_date : string) (now : date) :
  row !! "ExpiryDate" = Some (VStr expiry_date) ->
  row_is_expired (mkdate 2025 9 22) row
  = String.eqb (expiry_status expiry_date now) "EXPIRED".
Proof.
  intros Hrow. unfold row_is_expired, expiry_status, clk_ret. rewrite Hrow.
  destruct (strptime_ymd expiry_date) as [d|]; [|reflexivity]. cbv zeta.
  generalize (toordinal d) (toordinal (mkdate 2025 9 22)). intros x y.
  destruct (Z.ltb_spec x y), (Z.ltb_spec (x - y) 0); try lia; [reflexivity|].
  destruct (x - y <=? 7)%Z; [reflexivity|]. destruct (x - y <=? 30)%Z; reflexivity.
Qed.

Lemma expired_metric_agrees_with_label_witness :
  row_is_expired (mkdate 2025 9 22)
    (inventory_row 11023 "Organic Tomatoes" "SectionC" 15 "2025-09-18" "2025-09-21" 80 420 15)
  = String.eqb (expiry_status "2025-09-21" (mkdate 2030 1 1)) "EXPIRED".
Proof.
  apply (expired_metric_agrees_with_label
           (inventory_row 11023 "Organic Tomatoes" "SectionC" 15 "2025-09-18" "2025-09-21"
              80 420 15) "2025-09-21" (mkdate 2030 1 1)).
  reflexivity.
Defined.

Lemma stock_counts (cells : list (option Value)) lt gt :
  Forall (fun c => match c with
                   | Some (VInt n) => (0 <= n)%Z
                   | Some (VStr _) => False
                   | None => True
                   end) cells ->
  cells_test (cell_lt 10) cells = Returned lt ->
  cells_test (cell_gt 0) cells = Returned gt ->
  count_true lt = count_true (map (cell_eq (VInt 0)) cells) + count_true (zip_with andb gt lt).
Proof.
  intros Hall. revert lt gt.
  induction Hall as [|c cells Hc _ IH]; intros lt gt; simpl.
  - now intros [= <-] [= <-].
  - destruct (cell_lt 10 c) as [b1|] eqn:E1; [|discriminate].
    destruct (cells_test (cell_lt 10) cells) as [lt'|]; [|discriminate].
    destruct (cell_gt 0 c) as [b2|] eqn:E2; [|discriminate].
    destruct (cells_test (cell_gt 0) cells) as [gt'|]; [|discriminate].
    intros [= <-] [= <-]. specialize (IH _ _ eq_refl eq_refl).
    unfold count_true in *. simpl.
    destruct c as [[n|s]|]; simpl in *; [|contradiction|].
    + injection E1 as <-. injection E2 as <-.
      destruct (Z.ltb_spec n 10), (Z.gtb_spec n 0),
        (bool_decide (VInt n = VInt 0)) eqn:D;
        try (apply bool_decide_eq_true_1 in D; injection D as D);
        try (apply bool_decide_eq_false_1 in D; assert (n <> 0%Z) by congruence);
        simpl; lia.
    + injection E1 as <-. injection E2 as <-. simpl. lia.
Qed.

(** In a frame whose CurrentStock cells are ints from 0 on (or NaN),
    the three stock metrics are defined, and the "Low Stock Items" of
    [app.py] is the sum of "Out of Stock" and of the low stock count of
    [data_generator.py]. *)
Theorem stock_metrics_add_up (df : DataFrame) :
  has_column "CurrentStock" df = true ->
  column_nonneg "CurrentStock" df ->
  exists low out_of_stock low_in_stock,
    low_stock_items df = Returned low
    /\ out_of_stock_items df = Returned out_of_stock
    /\ generator_low_stock df = Returned low_in_stock
    /\ low = out_of_stock + low_in_stock
    /\ low <= length (df_rows df).
Proof.
  intros Hc Hnn.
  unfold low_stock_items, out_of_stock_items, generator_low_stock, column_test, df_col.
  rewrite Hc.
  set (cells := map (fun r : gmap string Value => r !! "CurrentStock") (df_rows df)).
  assert (Forall (fun c => match c with
                           | Some (VInt n) => (0 <= n)%Z
                           | Some (VStr _) => False
                           | None => True
                           end) cells) as Hcells.
  { unfold cells, column_nonneg in *. now apply Forall_map. }
  assert (forall test, (forall c, (exists n, c = Some (VInt n)) \/ c = None ->
                                  exists b, test c = Returned b) ->
            exists mask, cells_test test cells = Returned mask
                         /\ length mask = length cells) as Htot.
  { intros test Ht. clear -Hcells Ht. induction Hcells as [|c cells Hc _ IH]; simpl.
    - now exists [].
    - destruct (Ht c) as [b ->].
      { destruct c as [[n|s]|]; [left; eauto|contradiction|now right]. }
      destruct IH as (mask & -> & Hl). exists (b :: mask). simpl. auto. }
  destruct (Htot (cell_lt 10)) as (lt & Hlt & Hllt).
  { intros c [[n ->]| ->]; simpl; eauto. }
  destruct (Htot (cell_gt 0)) as (gt & Hgt & Hlgt).
  { intros c [[n ->]| ->]; simpl; eauto. }
  rewrite Hlt, Hgt. do 3 eexists. repeat split.
  - exact (stock_counts cells lt gt Hcells Hlt Hgt).
  - unfold count_true. etransitivity; [apply List.filter_length_le|].
    rewrite Hllt. unfold cells. now rewrite length_map.
Qed.

Lemma stock_metrics_add_up_witness :
  exists low out_of_stock low_in_stock,
    low_stock_items sample_df = Returned low
    /\ out_of_stock_items sample_df = Returned out_of_stock
    /\ generator_low_stock sample_df = Returned low_in_stock
    /\ low = out_of_stock + low_in_stock
    /\ low <= length (df_rows sample_df).
Proof.
  apply (stock_metrics_add_up sample_df); [reflexivity|].
  unfold column_nonneg. repeat constructor; vm_compute; discriminate.
Defined.

(** ** Further properties: the key column *)

(** [apply_data_updates] never changes a ProductID cell: with a
    ProductID in the update it writes that ID only to rows that carry
    it, and without one it does not write the column. *)
Theorem apply_data_updates_keeps_product_ids (df : DataFrame) (updates : dict)
    (df' : DataFrame) (message : string) :
  NoDup updates.*1 ->
  apply_data_updates df updates = Returned (df', message) ->
  map (fun r : gmap string Value => r !! "ProductID") (df_rows df')
  = map (fun r : gmap string Value => r !! "ProductID") (df_rows df).
Proof.
  intros Hnd H.
  destruct (dict_get "ProductID" updates) as [pid|] eqn:Hpid.
  - revert H. unfold apply_data_updates.
    destruct (df_empty df); [now intros [= <- _]|].
    destruct (find_mask df updates) as [[mask|]|] eqn:Hm;
      [|now intros [= <- _]|discriminate].
    destruct (existsb id mask); cbn [negb]; [|now intros [= <- _]].
    rewrite fold_apply_item. intros H.
    assert (df' = mkDataFrame (df_columns df)
              (fold_left (fun rows (kv : string * Value) => loc_set mask kv.1 kv.2 rows)
                 (applied_fields df updates) (df_rows df))) as ->.
    { destruct (map field_msg (applied_fields df updates)); now injection H as <- _. }
    cbn [df_rows].
    unfold find_mask, df_col in Hm. rewrite Hpid in Hm.
    destruct (has_column "ProductID" df) eqn:Hc; [|discriminate].
    injection Hm as <-. rewrite map_map.
    rewrite (selected_rows (fun r => cell_eq pid (r !! "ProductID"))).
    rewrite map_map. apply map_ext. intros r.
    destruct (cell_eq pid (r !! "ProductID")) eqn:E; [|reflexivity].
    rewrite write_all_lookup by now apply NoDup_applied.
    rewrite dict_get_applied, Hc, Hpid.
    unfold cell_eq in E. destruct (r !! "ProductID") as [w|]; [|discriminate].
    apply bool_decide_eq_true_1 in E. now subst.
  - apply list_eq. intros i.
    change (map ?f ?l) with (f <$> l). rewrite !list_lookup_fmap.
    destruct (apply_data_updates_shape _ _ _ _ H) as [_ Hlen].
    destruct (df_rows df' !! i) as [r'|] eqn:Hr'.
    + destruct (apply_data_updates_other_keys _ _ _ _ _ _ _ H Hpid Hr') as (r & -> & Hk).
      simpl. now rewrite Hk.
    + apply lookup_ge_None in Hr'. rewrite (lookup_ge_None_2 (df_rows df)) by lia.
      reflexivity.
Qed.

Lemma apply_data_updates_keeps_product_ids_witness :
  map (fun r : gmap string Value => r !! "ProductID") (df_rows restocked_df)
  = map (fun r : gmap string Value => r !! "ProductID") (df_rows sample_df).
Proof.
  apply (apply_data_updates_keeps_product_ids sample_df stock_update restocked_df
           "Successfully updated: ProductID: 11023, CurrentStock: 50").
  - apply (bool_decide_unpack _). vm_compute. reflexivity.
  - vm_compute. reflexivity.
Defined.
